(** * Generalized method of moments: the lecture notebook

    A shallow embedding of [lectures/13-generalized-moments/notebook.ipynb].

    Numbers.  The notebook computes with numpy's float64.  Here every number
    is a real ([R]): rounding and overflow are idealised away.  One effect
    of float64 is kept, because the notebook guards against it: the normal
    density of a residual far from zero underflows to zero, and the log of
    zero is minus infinity.  A Python call that raises, or whose numeric
    result is [nan] or infinite, has no real value and is modelled by
    [None].  A cell of a data frame holds a real;
    the only cells without a value are those of a column not yet assigned.

    State.  The notebook draws from numpy's global random generator and
    builds and fills pandas data frames, which are heap objects handed around
    by reference.  Both live in a [World]; each notebook function is a
    computation in the monad [M] over that world. *)

From Stdlib Require Import String.
From Stdlib Require Import Reals Lra List ZArith Lia Bool.
Import ListNotations.
Open Scope string_scope.
Open Scope list_scope.
Open Scope R_scope.

(** ** The numpy and scipy functions the notebook calls *)

Module Np.

(** Element-wise binary operation on two arrays of one shape.  Arrays of
    different lengths do not combine. *)
Fixpoint map2 (f : R -> R -> R) (xs ys : list R) : option (list R) :=
  match xs, ys with
  | [], [] => Some []
  | x :: xs', y :: ys' => option_map (cons (f x y)) (map2 f xs' ys')
  | _, _ => None
  end.

Definition add := map2 Rplus.
Definition sub := map2 Rminus.
Definition mul := map2 Rmult.

(** scalar + array, scalar * array *)
Definition sadd (c : R) (xs : list R) : list R := map (Rplus c) xs.
Definition smul (c : R) (xs : list R) : list R := map (Rmult c) xs.

Definition sum (xs : list R) : R := fold_right Rplus 0 xs.

(** [np.mean]: the mean of no element is [nan]. *)
Definition mean (xs : list R) : option R :=
  match xs with
  | [] => None
  | _ => Some (sum xs / INR (length xs))
  end.

Definition square (x : R) : R := x * x.

(** The float64 values a logarithm returns: a real number, minus infinity
    or [nan]. *)
Inductive ext := Real (r : R) | MinusInf | NotANumber.

(** [np.log] of one number: the log of zero is minus infinity, the log of a
    negative number is [nan]. *)
Definition log1 (x : R) : ext :=
  match total_order_T 0 x with
  | inleft (left _) => Real (ln x)
  | inleft (right _) => MinusInf
  | inright _ => NotANumber
  end.

Definition log (xs : list R) : list ext := map log1 xs.

(** [np.clip(a, a_min, None)]: minus infinity is raised to the bound, [nan]
    stays [nan]. *)
Definition clip1 (a_min : R) (v : ext) : ext :=
  match v with
  | Real x => Real (Rmax a_min x)
  | MinusInf => Real a_min
  | NotANumber => NotANumber
  end.

Definition clip (xs : list ext) (a_min : R) : list ext := map (clip1 a_min) xs.

(** The numbers of an array, when all its entries are real. *)
Fixpoint reals (xs : list ext) : option (list R) :=
  match xs with
  | [] => Some []
  | Real x :: xs' => option_map (cons x) (reals xs')
  | _ :: _ => None
  end.

(** [np.mean] of an array of such values: with an entry that is [nan] or
    infinite the mean is not a real number. *)
Definition mean_ext (xs : list ext) : option R :=
  match reals xs with
  | Some rs => mean rs
  | None => None
  end.

(** The standard normal density, in exact arithmetic. *)
Definition density (x : R) : R := exp (- (x * x) / 2) / sqrt (2 * PI).

(** [scipy.stats.norm.pdf] in float64 is library code.  The notebook is
    modelled over any density function that agrees with the exact density
    while the argument is within 30 of zero, is zero from 40 on, where
    float64 has underflowed, and in between stays from zero to the value at
    zero.  Where exactly between 30 and 40 it reaches zero is left to the
    library. *)
Class NormalDensity := {
  norm_pdf1 : R -> R;
  norm_pdf1_moderate : forall x, x * x <= 900 -> norm_pdf1 x = density x;
  norm_pdf1_far : forall x, 1600 <= x * x -> norm_pdf1 x = 0;
  norm_pdf1_range : forall x, 0 <= norm_pdf1 x <= / sqrt (2 * PI)
}.

Definition norm_pdf {F : NormalDensity} (xs : list R) : list R := map norm_pdf1 xs.

(** Two-dimensional arrays are lists of rows. *)
Definition matrix := list (list R).

Definition vstack (a b : list R) : option matrix :=
  if Nat.eqb (length a) (length b) then Some [a; b] else None.

(** Column [j] of a matrix; a row too short has no entry there. *)
Fixpoint column (j : nat) (m : matrix) : option (list R) :=
  match m with
  | [] => Some []
  | r :: m' =>
      match nth_error r j, column j m' with
      | Some x, Some c => Some (x :: c)
      | _, _ => None
      end
  end.

(** [.T] of a matrix of [ncols] columns *)
Fixpoint columns_from (j ncols : nat) (m : matrix) : option matrix :=
  match ncols with
  | O => Some []
  | S k =>
      match column j m, columns_from (S j) k m with
      | Some c, Some cs => Some (c :: cs)
      | _, _ => None
      end
  end.

Definition width (m : matrix) : nat :=
  match m with
  | [] => O
  | r :: _ => length r
  end.

Definition transpose (m : matrix) : option matrix := columns_from 0 (width m) m.

Definition identity (n : nat) : matrix :=
  map (fun i => map (fun j => if Nat.eqb i j then 1 else 0) (seq 0 n)) (seq 0 n).

(** [np.dot] of two vectors *)
Definition dot_vv (u v : list R) : option R := option_map sum (mul u v).

(** [np.dot] of a vector and a matrix: entry [j] is the inner product of
    the vector with column [j]. *)
Fixpoint dot_cols (u : list R) (cols : matrix) : option (list R) :=
  match cols with
  | [] => Some []
  | c :: cols' =>
      match dot_vv u c, dot_cols u cols' with
      | Some x, Some xs => Some (x :: xs)
      | _, _ => None
      end
  end.

Definition dot_vm (u : list R) (w : matrix) : option (list R) :=
  match transpose w with
  | Some cols => if Nat.eqb (length u) (length w) then dot_cols u cols else None
  | None => None
  end.

End Np.

(** ** The pandas objects the notebook builds and reads *)

Module Pd.

(** [pd.Index]: a name and the row labels *)
Record Index := mkIndex { name : string; labels : list Z }.

(** [pd.Index(range(n), name=...)] *)
Definition Index_range (n : nat) (nm : string) : Index :=
  mkIndex nm (map Z.of_nat (seq 0 n)).

(** A data frame: its index and its columns in order.  A column holds one
    value per row, or no value at all ([None]): the columns of a frame
    created from labels only are blank until they are assigned. *)
Record DataFrame := mkDataFrame {
  index : Index;
  columns : list (string * option (list R))
}.

Definition nrows (df : DataFrame) : nat := length (labels (index df)).

Definition column_labels (df : DataFrame) : list string := map fst (columns df).

Fixpoint lookup (label : string) (cols : list (string * option (list R)))
  : option (option (list R)) :=
  match cols with
  | [] => None
  | (l, c) :: cols' => if String.eqb l label then Some c else lookup label cols'
  end.

(** [df[label]] read as numbers: an absent label raises, a blank column
    has no real values. *)
Definition getitem (df : DataFrame) (label : string) : option (list R) :=
  match lookup label (columns df) with
  | Some (Some vs) => Some vs
  | _ => None
  end.

(** Replace the column in place, or append it when the label is new. *)
Fixpoint assign (label : string) (vs : list R) (cols : list (string * option (list R)))
  : list (string * option (list R)) :=
  match cols with
  | [] => [(label, Some vs)]
  | (l, c) :: cols' =>
      if String.eqb l label then (l, Some vs) :: cols'
      else (l, c) :: assign label vs cols'
  end.

(** [df[label] = values]: one value per row, or the assignment raises. *)
Definition setitem (df : DataFrame) (label : string) (vs : list R) : option DataFrame :=
  if Nat.eqb (length vs) (nrows df)
  then Some (mkDataFrame (index df) (assign label vs (columns df)))
  else None.

(** [pd.DataFrame(data, columns=..., index=...)] from a two-dimensional
    array: one row per index label, one entry per column label. *)
Definition from_array (data : Np.matrix) (cols : list string) (idx : Index)
  : option DataFrame :=
  if Nat.eqb (length data) (length (labels idx))
     && forallb (fun r => Nat.eqb (length r) (length cols)) data
  then option_map (fun cs => mkDataFrame idx (combine cols (map Some cs)))
         (Np.columns_from 0 (length cols) data)
  else None.

(** [pd.DataFrame(columns=..., index=...)]: a canvas of blank columns *)
Definition canvas (cols : list string) (idx : Index) : DataFrame :=
  mkDataFrame idx (map (fun l => (l, None)) cols).

(** [df[labels].sum(axis=1)]: the row sums over the selected columns; an
    absent label raises, a blank column adds nothing. *)
Fixpoint sum_axis1 (df : DataFrame) (sel : list string) (acc : list R)
  : option (list R) :=
  match sel with
  | [] => Some acc
  | l :: sel' =>
      match lookup l (columns df) with
      | None => None
      | Some None => sum_axis1 df sel' acc
      | Some (Some vs) =>
          match Np.add acc vs with
          | Some acc' => sum_axis1 df sel' acc'
          | None => None
          end
      end
  end.

Definition select_sum (df : DataFrame) (sel : list string) : option (list R) :=
  sum_axis1 df sel (repeat 0 (nrows df)).

(** Every filled column has one value per row. *)
Definition well_formed (df : DataFrame) : bool :=
  forallb (fun c => match snd c with
                    | Some vs => Nat.eqb (length vs) (nrows df)
                    | None => true
                    end) (columns df).

End Pd.

(** ** numpy's global random generator

    [np.random.seed] and [np.random.normal] are library code.  The notebook
    is modelled over any generator: a state, the state a seed puts it in,
    and a draw of [size] normal variates of a given scale that advances the
    state.  numpy takes seeds from 0 up to 2^32 - 1; the model ranges over
    the seeds the generator takes. *)

Class Generator := {
  rng_state : Type;
  seed_state : N -> rng_state;
  draw_normal : R -> nat -> rng_state -> list R * rng_state;
  draw_normal_length :
    forall scale size s, length (fst (draw_normal scale size s)) = size
}.

(** A generator to run the notebook on: the state counts the variates drawn
    so far, and the [k]-th variate is [scale * k]. *)
#[export] Instance counting_generator : Generator := {
  rng_state := nat;
  seed_state := N.to_nat;
  draw_normal := fun scale size s =>
    (map (fun k => scale * INR k) (seq s size), (s + size)%nat);
  draw_normal_length := fun scale size s =>
    eq_trans (length_map (fun k => scale * INR k) (seq s size)) (length_seq size s)
}.

(** A density to run the notebook on: exact while the square of the
    argument is at most 1488, zero beyond. *)
#[export] Program Instance flushing_density : Np.NormalDensity := {
  norm_pdf1 := fun x => if Rle_dec (x * x) 1488 then Np.density x else 0
}.
Next Obligation.
  destruct (Rle_dec _ 1488) as [_|Hn]; [reflexivity|lra].
Qed.
Next Obligation.
  destruct (Rle_dec _ 1488) as [Hl|_]; [lra|reflexivity].
Qed.
Next Obligation.
  assert (Hs : 0 < sqrt (2 * PI)).
  { apply sqrt_lt_R0. pose proof PI_RGT_0. lra. }
  assert (Hi : 0 < / sqrt (2 * PI)) by (apply Rinv_0_lt_compat; exact Hs).
  destruct (Rle_dec (x * x) 1488) as [_|_]; [|lra].
  unfold Np.density, Rdiv.
  assert (He : 0 < exp (- (x * x) / 2) <= 1).
  { split; [apply exp_pos|]. rewrite <- exp_0.
    destruct (Req_dec (x * x) 0) as [E|E].
    - rewrite E. replace (- 0 / 2) with 0 by field. lra.
    - left. apply exp_increasing. nra. }
  nra.
Qed.

(** ** The world of a notebook session, and computations in it *)

Section World.

Context {G : Generator}.

(** A data frame is handed around by reference: its position in the heap. *)
Definition ref := nat.

Record World := mkWorld {
  rng : rng_state;
  heap : list Pd.DataFrame
}.

(** A computation reads and updates the world and returns a value, or has
    no result. *)
Definition M (A : Type) : Type := World -> option (A * World).

Definition ret {A} (a : A) : M A := fun w => Some (a, w).

Definition bind {A B} (m : M A) (k : A -> M B) : M B :=
  fun w => match m w with
           | Some (a, w') => k a w'
           | None => None
           end.

Definition lift {A} (o : option A) : M A :=
  fun w => match o with
           | Some a => Some (a, w)
           | None => None
           end.

(** [for x in xs: acc = body(acc, x)] *)
Fixpoint for_each {A S} (xs : list A) (acc : S) (body : S -> A -> M S) : M S :=
  match xs with
  | [] => ret acc
  | x :: xs' => bind (body acc x) (fun acc' => for_each xs' acc' body)
  end.

(** [np.random.seed(seed)] *)
Definition np_random_seed (seed : N) : M unit :=
  fun w => Some (tt, mkWorld (seed_state seed) (heap w)).

(** [np.random.normal(scale=scale, size=size)] *)
Definition np_random_normal (scale : R) (size : nat) : M (list R) :=
  fun w => let (xs, s) := draw_normal scale size (rng w) in
           Some (xs, mkWorld s (heap w)).

(** A new frame goes to the end of the heap. *)
Definition alloc (df : Pd.DataFrame) : M ref :=
  fun w => Some (length (heap w), mkWorld (rng w) (heap w ++ [df])).

Definition deref (r : ref) : M Pd.DataFrame :=
  fun w => lift (nth_error (heap w) r) w.

Fixpoint update (r : nat) (df : Pd.DataFrame) (h : list Pd.DataFrame)
  : option (list Pd.DataFrame) :=
  match r, h with
  | O, _ :: h' => Some (df :: h')
  | S r', d :: h' => option_map (cons d) (update r' df h')
  | _, [] => None
  end.

Definition store (r : ref) (df : Pd.DataFrame) : M unit :=
  fun w => match update r df (heap w) with
           | Some h => Some (tt, mkWorld (rng w) h)
           | None => None
           end.

(** [df[label]] *)
Definition df_getitem (df : ref) (label : string) : M (list R) :=
  bind (deref df) (fun d => lift (Pd.getitem d label)).

(** [df[label] = values], which changes the frame every holder of the
    reference sees *)
Definition df_setitem (df : ref) (label : string) (vs : list R) : M unit :=
  bind (deref df) (fun d =>
  bind (lift (Pd.setitem d label vs)) (fun d' =>
  store df d')).

(** [df[labels].sum(axis=1)] *)
Definition df_select_sum (df : ref) (sel : list string) : M (list R) :=
  bind (deref df) (fun d => lift (Pd.select_sum d sel)).

(** [pd.DataFrame(data, columns=..., index=...)] *)
Definition pd_DataFrame (data : Np.matrix) (cols : list string) (idx : Pd.Index)
  : M ref :=
  bind (lift (Pd.from_array data cols idx)) alloc.

(** [pd.DataFrame(columns=..., index=...)] *)
Definition pd_DataFrame_canvas (cols : list string) (idx : Pd.Index) : M ref :=
  alloc (Pd.canvas cols idx).

End World.

Declare Scope monad_scope.
Delimit Scope monad_scope with monad.
Notation "x <- c ;; k" := (bind c (fun x => k))
  (at level 61, c at next level, right associativity) : monad_scope.
Notation "c ;;; k" := (bind c (fun _ => k))
  (at level 61, right associativity) : monad_scope.
Open Scope monad_scope.

(** An argument left out at the call takes the default of the signature. *)
Definition default_arg {A} (given : option A) (default : A) : A :=
  match given with
  | Some a => a
  | None => default
  end.

(** ** Example 1 (notebook cells 2, 6 and 10) *)

Module Example1.
Section Example1.

Context {G : Generator} {F : Np.NormalDensity}.

(** [def get_sample_1(num_agents, beta, seed=123)] *)
Definition get_sample_1 (num_agents : nat) (beta : R) (seed : option N) : M ref :=
  let random_sampling := fun scale => np_random_normal scale num_agents in
  np_random_seed (default_arg seed 123%N) ;;;
  X <- random_sampling 10 ;;
  eps <- random_sampling 1 ;;
  Y <- lift (Np.add (Np.sadd 1 (Np.smul beta X)) eps) ;;
  let index := Pd.Index_range num_agents "Identifier" in
  let columns := ["Y"; "X"] in
  stacked <- lift (Np.vstack Y X) ;;
  data <- lift (Np.transpose stacked) ;;
  pd_DataFrame data columns index.

(** [def get_moments(df, beta)] *)
Definition get_moments (df : ref) (beta : R) : M R :=
  Y <- df_getitem df "Y" ;;
  X <- df_getitem df "X" ;;
  residuals <- lift (Np.sub Y (Np.sadd 1 (Np.smul beta X))) ;;
  X' <- df_getitem df "X" ;;
  moments <- lift (Np.mul X' residuals) ;;
  lift (Np.mean moments).

(** [def criterion_function_gmm(beta, df)]; the mean of the scalar
    [moments] is the mean of the one-element array holding it. *)
Definition criterion_function_gmm (beta : R) (df : ref) : M R :=
  moments <- get_moments df beta ;;
  m <- lift (Np.mean [moments]) ;;
  ret (Np.square m).

(** [def get_residuals(df, beta)] *)
Definition get_residuals (df : ref) (beta : R) : M (list R) :=
  Y <- df_getitem df "Y" ;;
  X <- df_getitem df "X" ;;
  lift (Np.sub Y (Np.sadd 1 (Np.smul beta X))).

(** [def criterion_function_mle(beta, df)] *)
Definition criterion_function_mle (beta : R) (df : ref) : M R :=
  residuals <- get_residuals df beta ;;
  let rslt := Np.clip (Np.log (Np.norm_pdf residuals)) (-10e6) in
  m <- lift (Np.mean_ext rslt) ;;
  ret (- m).

End Example1.
End Example1.

(** ** Example 2 (notebook cells 12 and 18) *)

Module Example2.
Section Example2.

Context {G : Generator}.

(** [def get_sample_2(num_agents, beta, seed=123)] *)
Definition get_sample_2 (num_agents : nat) (beta : R) (seed : option N) : M ref :=
  let random_sampling := fun scale => np_random_normal scale num_agents in
  np_random_seed (default_arg seed 123%N) ;;;
  let index := Pd.Index_range num_agents "Identifier" in
  let columns := ["Y"; "X"; "Z1"; "Z2"] in
  df <- pd_DataFrame_canvas columns index ;;
  for_each ["Z1"; "Z2"] tt (fun _ label =>
    Z <- random_sampling 10 ;;
    df_setitem df label Z) ;;;
  C <- random_sampling 10 ;;
  S <- df_select_sum df ["Z1"; "Z2"] ;;
  CS <- lift (Np.add C S) ;;
  nu <- random_sampling 1 ;;
  X <- lift (Np.add CS nu) ;;
  df_setitem df "X" X ;;;
  u <- random_sampling 1 ;;
  U <- lift (Np.add C u) ;;
  X' <- df_getitem df "X" ;;
  Y <- lift (Np.add (Np.sadd 1 (Np.smul beta X')) U) ;;
  df_setitem df "Y" Y ;;;
  ret df.

(** [def get_moments(df, beta)] *)
Definition get_moments (df : ref) (beta : R) : M (list R) :=
  Y <- df_getitem df "Y" ;;
  X <- df_getitem df "X" ;;
  residuals <- lift (Np.sub Y (Np.sadd 1 (Np.smul beta X))) ;;
  for_each ["Z1"; "Z2"] ([] : list R) (fun moments label =>
    Z <- df_getitem df label ;;
    products <- lift (Np.mul Z residuals) ;;
    m <- lift (Np.mean products) ;;
    ret (moments ++ [m])).

(** [def criterion_function_gmm(beta, df, weighing_matrix=np.identity(2))] *)
Definition criterion_function_gmm (beta : R) (df : ref)
    (weighing_matrix : option Np.matrix) : M R :=
  let W := default_arg weighing_matrix (Np.identity 2) in
  moments <- get_moments df beta ;;
  mW <- lift (Np.dot_vm moments W) ;;
  rslt <- lift (Np.dot_vv mW moments) ;;
  ret rslt.

End Example2.
End Example2.

(** ** The notions the properties are stated with *)

(** The residual of one observation of the linear model with intercept 1 and
    slope [beta]. *)
Definition residual (beta y x : R) : R := y - (1 + beta * x).

(** The mean of [f] over the rows of a table. *)
Definition mean_over {A} (f : A -> R) (rows : list A) : option R :=
  Np.mean (map f rows).

(** The quadratic form [m^T W m] of a two-element vector and a 2x2 matrix. *)
Definition quadratic_form2 (m0 m1 w00 w01 w10 w11 : R) : R :=
  m0 * w00 * m0 + m0 * w01 * m1 + m1 * w10 * m0 + m1 * w11 * m1.

(** The log of the normal density of a residual, unmodified: minus
    infinity where the density is zero. *)
Definition log_density {F : Np.NormalDensity} (r : R) : Np.ext :=
  Np.log1 (Np.norm_pdf1 r).

(** The same, clipped from below at [-10e6]: the bound itself where the
    density is zero. *)
Definition clipped_log_density {F : Np.NormalDensity} (r : R) : R :=
  if Rlt_dec 0 (Np.norm_pdf1 r)
  then Rmax (-10e6) (ln (Np.norm_pdf1 r))
  else -10e6.

(** The rows of two columns. *)
Definition rows2 (a b : list R) : list (R * R) := combine a b.

(** The frame a reference points to. *)
Definition frame_at {G : Generator} (w : World) (r : ref) : option Pd.DataFrame :=
  nth_error (heap w) r.

(** The value a computation returns in a world, if it returns. *)
Definition result_of {G : Generator} {A} (c : M A) (w : World) : option A :=
  option_map fst (c w).

(** A computation that leaves every world it returns from as it found it. *)
Definition read_only {G : Generator} {A} (c : M A) : Prop :=
  forall w a w', c w = Some (a, w') -> w' = w.

(** The vector of the two Example-2 moments, row by row: the means of
    [Z1 * r] and of [Z2 * r] with [r] the residual of the row. *)
Definition moment_of (beta : R) (ys xs zs : list R) : option R :=
  mean_over (fun row => snd row * residual beta (fst (fst row)) (snd (fst row)))
            (combine (combine ys xs) zs).

(** The two Example-2 moments together; there is no vector when either mean
    is missing. *)
Definition moment_vector (beta : R) (ys xs z1s z2s : list R) : option (R * R) :=
  match moment_of beta ys xs z1s, moment_of beta ys xs z2s with
  | Some m0, Some m1 => Some (m0, m1)
  | _, _ => None
  end.

(** ** The data-generating processes, row by row *)

Section Processes.

Context {G : Generator}.

(** The [k]-th of the successive draws a sample takes after seeding, each
    of [n] variates, with the scales listed; and the generator state left
    after the draws. *)
Fixpoint state_after (n : nat) (scales : list R) (s : rng_state) : rng_state :=
  match scales with
  | [] => s
  | scale :: scales' => state_after n scales' (snd (draw_normal scale n s))
  end.

Definition draw_after (n : nat) (scales : list R) (scale : R) (s : rng_state)
  : list R :=
  fst (draw_normal scale n (state_after n scales s)).

(** Example 1: [X] is the first draw, of scale 10, [eps] the second, of
    scale 1, and [Y = 1 + beta * X + eps] in every row. *)
Definition sample_1_X (n : nat) (seed : N) : list R :=
  draw_after n [] 10 (seed_state seed).
Definition sample_1_eps (n : nat) (seed : N) : list R :=
  draw_after n [10] 1 (seed_state seed).
Definition sample_1_Y (n : nat) (beta : R) (seed : N) : list R :=
  map (fun i => 1 + beta * nth i (sample_1_X n seed) 0 + nth i (sample_1_eps n seed) 0)
      (seq 0 n).

Definition sample_1_frame (n : nat) (beta : R) (seed : N) : Pd.DataFrame :=
  Pd.mkDataFrame (Pd.mkIndex "Identifier" (map Z.of_nat (seq 0 n)))
    [("Y", Some (sample_1_Y n beta seed)); ("X", Some (sample_1_X n seed))].

(** Example 2: five successive draws [Z1], [Z2], [C] of scale 10 and [nu],
    [u] of scale 1; [X = C + Z1 + Z2 + nu], [U = C + u] and
    [Y = 1 + beta * X + U] in every row. *)
Definition sample_2_Z1 (n : nat) (seed : N) : list R :=
  draw_after n [] 10 (seed_state seed).
Definition sample_2_Z2 (n : nat) (seed : N) : list R :=
  draw_after n [10] 10 (seed_state seed).
Definition sample_2_C (n : nat) (seed : N) : list R :=
  draw_after n [10; 10] 10 (seed_state seed).
Definition sample_2_nu (n : nat) (seed : N) : list R :=
  draw_after n [10; 10; 10] 1 (seed_state seed).
Definition sample_2_u (n : nat) (seed : N) : list R :=
  draw_after n [10; 10; 10; 1] 1 (seed_state seed).
Definition sample_2_X (n : nat) (seed : N) : list R :=
  map (fun i => nth i (sample_2_C n seed) 0 + nth i (sample_2_Z1 n seed) 0
                + nth i (sample_2_Z2 n seed) 0 + nth i (sample_2_nu n seed) 0)
      (seq 0 n).
Definition sample_2_U (n : nat) (seed : N) : list R :=
  map (fun i => nth i (sample_2_C n seed) 0 + nth i (sample_2_u n seed) 0) (seq 0 n).
Definition sample_2_Y (n : nat) (beta : R) (seed : N) : list R :=
  map (fun i => 1 + beta * nth i (sample_2_X n seed) 0 + nth i (sample_2_U n seed) 0)
      (seq 0 n).

Definition sample_2_frame (n : nat) (beta : R) (seed : N) : Pd.DataFrame :=
  Pd.mkDataFrame (Pd.mkIndex "Identifier" (map Z.of_nat (seq 0 n)))
    [("Y", Some (sample_2_Y n beta seed)); ("X", Some (sample_2_X n seed));
     ("Z1", Some (sample_2_Z1 n seed)); ("Z2", Some (sample_2_Z2 n seed))].

End Processes.

(** ** Worlds to run the notebook in *)

(** Two observations, on the line [Y = 1 + 2 * X], with their instruments. *)
Definition line_frame : Pd.DataFrame :=
  Pd.mkDataFrame (Pd.Index_range 2 "Identifier")
    [("Y", Some [3; 5]); ("X", Some [1; 2]); ("Z1", Some [1; 0]); ("Z2", Some [0; 1])].

Definition line_world : World (G := counting_generator) := mkWorld 0%nat [line_frame].

(** One observation far from the line of slope 0. *)
Definition far_frame : Pd.DataFrame :=
  Pd.mkDataFrame (Pd.Index_range 1 "Identifier")
    [("Y", Some [10001]); ("X", Some [0])].

Definition far_world : World (G := counting_generator) := mkWorld 0%nat [far_frame].

(** No observation at all. *)
Definition empty_frame : Pd.DataFrame :=
  Pd.mkDataFrame (Pd.Index_range 0 "Identifier") [("Y", Some []); ("X", Some [])].

Definition empty_world : World (G := counting_generator) := mkWorld 0%nat [empty_frame].

(** * Lemmas *)

(** ** Arrays *)

Section ArrayFacts.

(** Row [i] of an element-wise operation is the operation on row [i]. *)
Lemma map2_rows (f : R -> R -> R) (n : nat) (xs ys : list R) :
  length xs = n -> length ys = n ->
  Np.map2 f xs ys = Some (map (fun i => f (nth i xs 0) (nth i ys 0)) (seq 0 n)).
Proof.
  revert xs ys; induction n as [|n IH]; intros [|x xs] [|y ys] Hx Hy;
    simpl in *; try discriminate; auto.
  rewrite (IH xs ys) by lia. simpl. rewrite <- seq_shift, map_map. reflexivity.
Qed.

Lemma map_rows (f : R -> R) (n : nat) (xs : list R) :
  length xs = n -> map f xs = map (fun i => f (nth i xs 0)) (seq 0 n).
Proof.
  revert xs; induction n as [|n IH]; intros [|x xs] Hx; simpl in *;
    try discriminate; auto.
  rewrite (IH xs) by lia. rewrite <- seq_shift, map_map. reflexivity.
Qed.

(** The residuals of the columns [ys] and [xs], computed array-wise,
    multiplied by a third column, are the per-row products. *)
Lemma products_rowwise (beta : R) (ys xs zs : list R) :
  length ys = length xs -> length zs = length xs ->
  exists res,
    Np.sub ys (Np.sadd 1 (Np.smul beta xs)) = Some res /\
    res = map (fun row => residual beta (fst row) (snd row)) (combine ys xs) /\
    Np.mul zs res =
      Some (map (fun row => snd row * residual beta (fst (fst row)) (snd (fst row)))
                (combine (combine ys xs) zs)).
Proof.
  unfold Np.sub, Np.mul, Np.sadd, Np.smul.
  revert xs zs; induction ys as [|y ys IH]; intros [|x xs] [|z zs] H1 H2;
    simpl in *; try discriminate.
  - eexists; repeat split.
  - destruct (IH xs zs) as (res & E1 & E2 & E3); try lia.
    rewrite E1. simpl. eexists; split; [reflexivity|]. split.
    + rewrite E2. reflexivity.
    + rewrite E3. reflexivity.
Qed.

Lemma mean_singleton (x : R) : Np.mean [x] = Some x.
Proof. unfold Np.mean, Np.sum; simpl. f_equal. field. Qed.

End ArrayFacts.

(** ** Frames *)

Section FrameFacts.

Lemma lookup_in (l : string) (cols : list (string * option (list R))) c :
  Pd.lookup l cols = Some c -> In (l, c) cols.
Proof.
  induction cols as [|[l' c'] cols IH]; simpl; [discriminate|].
  destruct (String.eqb l' l) eqn:E.
  - apply String.eqb_eq in E. intros H; inversion H; subst; auto.
  - auto.
Qed.

Lemma getitem_length (d : Pd.DataFrame) (l : string) (vs : list R) :
  Pd.well_formed d = true -> Pd.getitem d l = Some vs -> length vs = Pd.nrows d.
Proof.
  unfold Pd.well_formed, Pd.getitem. intros Hwf H.
  destruct (Pd.lookup l (Pd.columns d)) as [[c|]|] eqn:E; try discriminate.
  inversion H; subst c. apply lookup_in in E.
  rewrite forallb_forall in Hwf. specialize (Hwf _ E). simpl in Hwf.
  apply Nat.eqb_eq; exact Hwf.
Qed.

End FrameFacts.

(** ** Running computations *)

Section Running.

Context {G : Generator}.

Lemma bind_run {A B} (m : M A) (k : A -> M B) (w w' : World) (a : A) :
  m w = Some (a, w') -> bind m k w = k a w'.
Proof. unfold bind; intros ->; reflexivity. Qed.

Lemma bind_inv {A B} (m : M A) (k : A -> M B) (w w' : World) (b : B) :
  bind m k w = Some (b, w') ->
  exists a w1, m w = Some (a, w1) /\ k a w1 = Some (b, w').
Proof.
  unfold bind. destruct (m w) as [[a w1]|]; [|discriminate]. eauto.
Qed.

Lemma bind_assoc {A B C} (m : M A) (f : A -> M B) (g : B -> M C) (w : World) :
  bind (bind m f) g w = bind m (fun a => bind (f a) g) w.
Proof. unfold bind. destruct (m w) as [[a w1]|]; reflexivity. Qed.

Lemma lift_run {A} (o : option A) (a : A) (w : World) :
  o = Some a -> lift o w = Some (a, w).
Proof. intros ->; reflexivity. Qed.

Lemma df_getitem_run (w : World) (df : ref) (d : Pd.DataFrame) l vs :
  frame_at w df = Some d -> Pd.getitem d l = Some vs ->
  df_getitem df l w = Some (vs, w).
Proof.
  unfold frame_at, df_getitem, deref, bind, lift. intros -> ->. reflexivity.
Qed.

(** *** Computations that only read *)

Lemma read_only_ret {A} (a : A) : read_only (ret a).
Proof. intros w a' w' H; inversion H; reflexivity. Qed.

Lemma read_only_lift {A} (o : option A) : read_only (lift o).
Proof. intros w a w' H; unfold lift in H; destruct o; inversion H; reflexivity. Qed.

Lemma read_only_bind {A B} (m : M A) (k : A -> M B) :
  read_only m -> (forall a, read_only (k a)) -> read_only (bind m k).
Proof.
  intros Hm Hk w b w' H. apply bind_inv in H. destruct H as (a & w1 & H1 & H2).
  apply Hm in H1; subst w1. eapply Hk; eauto.
Qed.

Lemma read_only_deref (r : ref) : read_only (deref r).
Proof. intros w a w' H; unfold deref in H. eapply read_only_lift; eauto. Qed.

Lemma read_only_df_getitem (df : ref) (l : string) : read_only (df_getitem df l).
Proof.
  unfold df_getitem. apply read_only_bind; [apply read_only_deref|].
  intros; apply read_only_lift.
Qed.

Lemma read_only_for_each {A S} (xs : list A) (body : S -> A -> M S) :
  (forall acc x, read_only (body acc x)) ->
  forall acc, read_only (for_each xs acc body).
Proof.
  intros Hb. induction xs as [|x xs IH]; intros acc; simpl.
  - apply read_only_ret.
  - apply read_only_bind; auto.
Qed.

End Running.

(** One step of a run: the next call returns as the given equation says. *)
Tactic Notation "run_with" uconstr(H) :=
  rewrite ?bind_assoc; rewrite (bind_run _ _ _ _ _ H).

Create HintDb readonly.
#[export] Hint Resolve read_only_ret read_only_lift read_only_deref
  read_only_df_getitem : readonly.

Ltac prove_read_only :=
  repeat first
    [ apply read_only_bind; [|intros]
    | apply read_only_for_each; intros
    | solve [auto with readonly] ].

(** ** The moment functions, run on a frame *)

Section Moments.

Context {G : Generator}.

Lemma rows_with_own_column (beta : R) (ys xs : list R) :
  map (fun row => snd row * residual beta (fst (fst row)) (snd (fst row)))
      (combine (combine ys xs) xs)
  = map (fun row => snd row * residual beta (fst row) (snd row)) (rows2 ys xs).
Proof.
  unfold rows2. revert xs; induction ys as [|y ys IH]; intros [|x xs]; simpl; auto.
  rewrite IH. reflexivity.
Qed.

Lemma example1_get_moments_run (w : World) (df : ref) (d : Pd.DataFrame)
      (beta : R) (ys xs : list R) :
  frame_at w df = Some d ->
  Pd.getitem d "Y" = Some ys -> Pd.getitem d "X" = Some xs ->
  length ys = length xs ->
  Example1.get_moments df beta w =
    lift (mean_over (fun row => snd row * residual beta (fst row) (snd row))
                    (rows2 ys xs)) w.
Proof.
  intros Hd HY HX Hlen. unfold Example1.get_moments.
  destruct (products_rowwise beta ys xs xs Hlen eq_refl) as (res & E1 & _ & E3).
  rewrite (bind_run _ _ _ _ _ (df_getitem_run _ _ _ _ _ Hd HY)).
  rewrite (bind_run _ _ _ _ _ (df_getitem_run _ _ _ _ _ Hd HX)).
  rewrite (bind_run _ _ _ _ _ (lift_run _ _ _ E1)).
  rewrite (bind_run _ _ _ _ _ (df_getitem_run _ _ _ _ _ Hd HX)).
  rewrite (bind_run _ _ _ _ _ (lift_run _ _ _ E3)).
  unfold mean_over. rewrite rows_with_own_column. reflexivity.
Qed.

Lemma example1_residuals_run (w : World) (df : ref) (d : Pd.DataFrame)
      (beta : R) (ys xs : list R) :
  frame_at w df = Some d ->
  Pd.getitem d "Y" = Some ys -> Pd.getitem d "X" = Some xs ->
  length ys = length xs ->
  Example1.get_residuals df beta w =
    Some (map (fun row => residual beta (fst row) (snd row)) (rows2 ys xs), w).
Proof.
  intros Hd HY HX Hlen. unfold Example1.get_residuals.
  destruct (products_rowwise beta ys xs xs Hlen eq_refl) as (res & E1 & E2 & _).
  rewrite (bind_run _ _ _ _ _ (df_getitem_run _ _ _ _ _ Hd HY)).
  rewrite (bind_run _ _ _ _ _ (df_getitem_run _ _ _ _ _ Hd HX)).
  rewrite E1, E2. reflexivity.
Qed.

Lemma example2_get_moments_run (w : World) (df : ref) (d : Pd.DataFrame)
      (beta : R) (ys xs z1s z2s : list R) :
  frame_at w df = Some d ->
  Pd.getitem d "Y" = Some ys -> Pd.getitem d "X" = Some xs ->
  Pd.getitem d "Z1" = Some z1s -> Pd.getitem d "Z2" = Some z2s ->
  length ys = length xs -> length z1s = length xs -> length z2s = length xs ->
  Example2.get_moments df beta w =
    lift (option_map (fun m => [fst m; snd m])
                     (moment_vector beta ys xs z1s z2s)) w.
Proof.
  intros Hd HY HX HZ1 HZ2 Hlen H1 H2. unfold Example2.get_moments.
  destruct (products_rowwise beta ys xs z1s Hlen H1) as (res & E1 & _ & P1).
  destruct (products_rowwise beta ys xs z2s Hlen H2) as (res' & E1' & _ & P2).
  rewrite E1 in E1'; inversion E1'; subst res'; clear E1'.
  run_with (df_getitem_run _ _ _ _ _ Hd HY).
  run_with (df_getitem_run _ _ _ _ _ Hd HX).
  run_with (lift_run _ _ _ E1).
  unfold moment_vector, moment_of, mean_over. simpl for_each.
  run_with (df_getitem_run _ _ _ _ _ Hd HZ1).
  run_with (lift_run _ _ _ P1).
  destruct (Np.mean (map _ (combine (combine ys xs) z1s))) as [m0|] eqn:M0;
    [|reflexivity].
  run_with (lift_run _ _ w (eq_refl (Some m0))).
  rewrite ?bind_assoc. unfold ret at 1. unfold bind at 1.
  run_with (df_getitem_run _ _ _ _ _ Hd HZ2).
  run_with (lift_run _ _ _ P2).
  destruct (Np.mean (map _ (combine (combine ys xs) z2s))) as [m1|] eqn:M1;
    reflexivity.
Qed.

Lemma quadratic_form_by_dots (m0 m1 w00 w01 w10 w11 : R) :
  match Np.dot_vm [m0; m1] [[w00; w01]; [w10; w11]] with
  | Some mW => Np.dot_vv mW [m0; m1]
  | None => None
  end = Some (quadratic_form2 m0 m1 w00 w01 w10 w11).
Proof.
  unfold Np.dot_vm, Np.dot_vv, Np.mul, Np.sum, quadratic_form2. simpl.
  f_equal. ring.
Qed.

Lemma example2_criterion_run (w : World) (df : ref) (d : Pd.DataFrame)
      (beta : R) (ys xs z1s z2s : list R) (w00 w01 w10 w11 : R) :
  frame_at w df = Some d ->
  Pd.getitem d "Y" = Some ys -> Pd.getitem d "X" = Some xs ->
  Pd.getitem d "Z1" = Some z1s -> Pd.getitem d "Z2" = Some z2s ->
  length ys = length xs -> length z1s = length xs -> length z2s = length xs ->
  Example2.criterion_function_gmm beta df (Some [[w00; w01]; [w10; w11]]) w =
    lift (option_map (fun m => quadratic_form2 (fst m) (snd m) w00 w01 w10 w11)
                     (moment_vector beta ys xs z1s z2s)) w.
Proof.
  intros Hd HY HX HZ1 HZ2 Hlen H1 H2. unfold Example2.criterion_function_gmm.
  unfold bind at 1.
  rewrite (example2_get_moments_run w df d beta ys xs z1s z2s) by assumption.
  destruct (moment_vector beta ys xs z1s z2s) as [[m0 m1]|]; simpl; [|reflexivity].
  pose proof (quadratic_form_by_dots m0 m1 w00 w01 w10 w11) as Q.
  unfold bind, lift.
  destruct (Np.dot_vm [m0; m1] [[w00; w01]; [w10; w11]]) as [mW|]; [|discriminate].
  rewrite Q. reflexivity.
Qed.

End Moments.

(** ** The log-likelihood terms *)

Section LogDensity.

Context {F : Np.NormalDensity}.

Lemma sqrt_2PI_gt_1 : 1 < sqrt (2 * PI).
Proof.
  rewrite <- sqrt_1 at 1. pose proof PI2_1.
  apply sqrt_lt_1; lra.
Qed.

Lemma ln_sqrt_2PI_pos : 0 < ln (sqrt (2 * PI)).
Proof.
  rewrite <- ln_1. apply ln_increasing; [lra | apply sqrt_2PI_gt_1].
Qed.

(** The log of the exact density in closed form. *)
Lemma ln_density_closed (r : R) :
  ln (Np.density r) = - (r * r) / 2 - ln (sqrt (2 * PI)).
Proof.
  unfold Np.density, Rdiv at 1.
  pose proof sqrt_2PI_gt_1 as Hs.
  rewrite ln_mult.
  - rewrite ln_exp, ln_Rinv by lra. lra.
  - apply exp_pos.
  - apply Rinv_0_lt_compat; lra.
Qed.

Lemma log1_positive (x : R) : 0 < x -> Np.log1 x = Np.Real (ln x).
Proof.
  intros Hx. unfold Np.log1.
  destruct (total_order_T 0 x) as [[_|E]|Hn]; [reflexivity|lra|lra].
Qed.

Lemma log1_zero : Np.log1 0 = Np.MinusInf.
Proof.
  unfold Np.log1.
  destruct (total_order_T 0 0) as [[Hp|_]|Hn]; [lra|reflexivity|lra].
Qed.

(** A density is positive or has underflowed to zero. *)
Lemma norm_pdf1_cases (r : R) : 0 < Np.norm_pdf1 r \/ Np.norm_pdf1 r = 0.
Proof. destruct (Np.norm_pdf1_range r) as [[H|H] _]; auto. Qed.

(** One term of the criterion: the log may be minus infinity, the clipped
    log is a real number. *)
Lemma clipped_term (r : R) :
  Np.clip1 (-10e6) (log_density r) = Np.Real (clipped_log_density r).
Proof.
  unfold log_density, clipped_log_density.
  destruct (norm_pdf1_cases r) as [Hp|Hz].
  - rewrite log1_positive by exact Hp.
    destruct (Rlt_dec 0 (Np.norm_pdf1 r)); [reflexivity|contradiction].
  - rewrite Hz, log1_zero.
    destruct (Rlt_dec 0 0); [lra|reflexivity].
Qed.

Lemma clipped_log_density_bound (r : R) : -10e6 <= clipped_log_density r.
Proof.
  unfold clipped_log_density.
  destruct (Rlt_dec 0 (Np.norm_pdf1 r)); [apply Rmax_l|lra].
Qed.

Lemma clipped_terms (res : list R) :
  Np.clip (Np.log (Np.norm_pdf res)) (-10e6)
  = map Np.Real (map clipped_log_density res).
Proof.
  unfold Np.clip, Np.log, Np.norm_pdf. rewrite !map_map.
  apply map_ext. intros r. apply clipped_term.
Qed.

Lemma reals_of_reals (xs : list R) : Np.reals (map Np.Real xs) = Some xs.
Proof. induction xs as [|x xs IH]; simpl; [reflexivity|]. rewrite IH. reflexivity. Qed.

Lemma mean_ext_of_reals (xs : list R) : Np.mean_ext (map Np.Real xs) = Np.mean xs.
Proof. unfold Np.mean_ext. rewrite reals_of_reals. reflexivity. Qed.

(** A sum is at least as many times the bound as it has terms. *)
Lemma sum_lower_bound (lo : R) (xs : list R) :
  Forall (fun x => lo <= x) xs -> lo * INR (length xs) <= Np.sum xs.
Proof.
  induction 1 as [|x xs Hx _ IH].
  - simpl. lra.
  - change (length (x :: xs)) with (S (length xs)). rewrite S_INR.
    unfold Np.sum in *; simpl. lra.
Qed.

Lemma mean_lower_bound (lo : R) (xs : list R) :
  xs <> [] -> Forall (fun x => lo <= x) xs ->
  exists m, Np.mean xs = Some m /\ lo <= m.
Proof.
  intros Hne Hall. destruct xs as [|x xs]; [congruence|].
  eexists; split; [reflexivity|].
  pose proof (sum_lower_bound lo _ Hall) as Hs.
  assert (Hn : 0 < INR (length (x :: xs))) by (apply lt_0_INR; simpl; lia).
  apply Rmult_le_reg_r with (INR (length (x :: xs))); [exact Hn|].
  unfold Rdiv. rewrite Rmult_assoc, Rinv_l by lra. lra.
Qed.

Lemma map_ext_Forall {A} (f g : A -> R) (l : list A) :
  Forall (fun a => f a = g a) l -> map f l = map g l.
Proof. induction 1; simpl; congruence. Qed.

End LogDensity.

Section Likelihood.

Context {G : Generator} {F : Np.NormalDensity}.

Lemma example1_mle_run (w : World) (df : ref) (d : Pd.DataFrame)
      (beta : R) (ys xs : list R) :
  frame_at w df = Some d ->
  Pd.getitem d "Y" = Some ys -> Pd.getitem d "X" = Some xs ->
  length ys = length xs ->
  Example1.criterion_function_mle beta df w =
    lift (option_map Ropp
            (mean_over (fun row => clipped_log_density
                                     (residual beta (fst row) (snd row)))
                       (rows2 ys xs))) w.
Proof.
  intros Hd HY HX Hlen. unfold Example1.criterion_function_mle.
  run_with (example1_residuals_run w df d beta ys xs Hd HY HX Hlen).
  rewrite clipped_terms, mean_ext_of_reals, map_map. unfold mean_over.
  destruct (Np.mean _) as [m|]; reflexivity.
Qed.

End Likelihood.

(** ** Stacking and transposing *)

Section Stacking.

Lemma columns_from_tail (x y : R) (a b : list R) (k j : nat) :
  Np.columns_from (S j) k [x :: a; y :: b] = Np.columns_from j k [a; b].
Proof.
  revert j; induction k as [|k IH]; intros j; simpl; [reflexivity|].
  rewrite (IH (S j)). reflexivity.
Qed.

Lemma transpose_pair (a b : list R) :
  length a = length b ->
  Np.transpose [a; b] = Some (map (fun p => [fst p; snd p]) (combine a b)).
Proof.
  unfold Np.transpose, Np.width.
  revert b; induction a as [|x a IH]; intros [|y b] H; simpl in *;
    try discriminate; [reflexivity|].
  rewrite columns_from_tail, IH by lia. reflexivity.
Qed.

Lemma columns_of_pairs (a b : list R) :
  length a = length b ->
  Np.columns_from 0 2 (map (fun p => [fst p; snd p]) (combine a b))
  = Some [a; b].
Proof.
  revert b; induction a as [|x a IH]; intros [|y b] H; simpl in *;
    try discriminate; [reflexivity|].
  specialize (IH b ltac:(lia)). simpl in IH.
  destruct (Np.column 0 _) as [c0|]; [|discriminate].
  destruct (Np.column 1 _) as [c1|]; [|discriminate].
  inversion IH; subst. reflexivity.
Qed.

Lemma pairs_shape (a b : list R) :
  forallb (fun r => Nat.eqb (length r) 2)
          (map (fun p => [fst p; snd p]) (combine a b)) = true.
Proof.
  apply forallb_forall. intros r Hr. apply in_map_iff in Hr.
  destruct Hr as (p & <- & _). reflexivity.
Qed.

Lemma from_array_pair (a b : list R) (n : nat) (la lb nm : string) :
  length a = n -> length b = n ->
  match Np.vstack a b with
  | Some stacked =>
      match Np.transpose stacked with
      | Some data => Pd.from_array data [la; lb] (Pd.Index_range n nm)
      | None => None
      end
  | None => None
  end = Some (Pd.mkDataFrame (Pd.mkIndex nm (map Z.of_nat (seq 0 n)))
                             [(la, Some a); (lb, Some b)]).
Proof.
  intros Ha Hb. unfold Np.vstack. rewrite Ha, Hb, Nat.eqb_refl.
  rewrite transpose_pair by lia. unfold Pd.from_array.
  rewrite length_map, length_combine, Ha, Hb, Nat.min_id. simpl Pd.labels.
  rewrite length_map, length_seq, Nat.eqb_refl. simpl length.
  rewrite pairs_shape. simpl andb. cbv iota.
  rewrite columns_of_pairs by lia. reflexivity.
Qed.

Lemma affine_rows (beta : R) (n : nat) (xs es : list R) :
  length xs = n -> length es = n ->
  Np.add (Np.sadd 1 (Np.smul beta xs)) es
  = Some (map (fun i => 1 + beta * nth i xs 0 + nth i es 0) (seq 0 n)).
Proof.
  unfold Np.add, Np.sadd, Np.smul.
  revert xs es; induction n as [|n IH]; intros [|x xs] [|e es] Hx He;
    simpl in *; try discriminate; [reflexivity|].
  rewrite (IH xs es) by lia. simpl. rewrite <- seq_shift, map_map. reflexivity.
Qed.

End Stacking.

(** ** Running the samplers *)

Section Sampling.

Context {G : Generator}.

Lemma np_random_normal_run (scale : R) (n : nat) (s : rng_state)
      (h : list Pd.DataFrame) :
  np_random_normal scale n (mkWorld s h)
  = Some (fst (draw_normal scale n s), mkWorld (snd (draw_normal scale n s)) h).
Proof.
  unfold np_random_normal; simpl. destruct (draw_normal scale n s); reflexivity.
Qed.

Lemma draw_after_length (n : nat) (scales : list R) (scale : R) (s : rng_state) :
  length (draw_after n scales scale s) = n.
Proof. apply draw_normal_length. Qed.

Lemma nth_error_last (h : list Pd.DataFrame) (d : Pd.DataFrame) :
  nth_error (h ++ [d]) (length h) = Some d.
Proof. rewrite nth_error_app2, Nat.sub_diag by lia. reflexivity. Qed.

Lemma nth_error_before (h : list Pd.DataFrame) (d : Pd.DataFrame) (r : nat) :
  (r < length h)%nat -> nth_error (h ++ [d]) r = nth_error h r.
Proof. intros; apply nth_error_app1; assumption. Qed.

Lemma update_last (h : list Pd.DataFrame) (d d' : Pd.DataFrame) :
  update (length h) d' (h ++ [d]) = Some (h ++ [d']).
Proof.
  induction h as [|x h IH]; simpl; [reflexivity|]. rewrite IH. reflexivity.
Qed.

Lemma df_setitem_last (s : rng_state) (h : list Pd.DataFrame) (d : Pd.DataFrame)
      (label : string) (vs : list R) :
  length vs = Pd.nrows d ->
  df_setitem (length h) label vs (mkWorld s (h ++ [d]))
  = Some (tt, mkWorld s (h ++ [Pd.mkDataFrame (Pd.index d)
                                   (Pd.assign label vs (Pd.columns d))])).
Proof.
  intros Hlen. unfold df_setitem, deref, bind, lift, store, Pd.setitem; simpl.
  rewrite nth_error_last, Hlen, Nat.eqb_refl. simpl.
  rewrite update_last. reflexivity.
Qed.

Lemma df_getitem_last (s : rng_state) (h : list Pd.DataFrame) (d : Pd.DataFrame)
      (label : string) (vs : list R) :
  Pd.getitem d label = Some vs ->
  df_getitem (length h) label (mkWorld s (h ++ [d]))
  = Some (vs, mkWorld s (h ++ [d])).
Proof.
  intros H. apply df_getitem_run with d; [|exact H].
  unfold frame_at; simpl. apply nth_error_last.
Qed.

Lemma df_select_sum_last (s : rng_state) (h : list Pd.DataFrame) (d : Pd.DataFrame)
      (sel : list string) (vs : list R) :
  Pd.select_sum d sel = Some vs ->
  df_select_sum (length h) sel (mkWorld s (h ++ [d]))
  = Some (vs, mkWorld s (h ++ [d])).
Proof.
  intros H. unfold df_select_sum, deref, bind, lift; simpl.
  rewrite nth_error_last, H. reflexivity.
Qed.

Lemma repeat_rows (n : nat) : repeat 0 n = map (fun _ => 0) (seq 0 n).
Proof.
  induction n as [|n IH]; simpl; [reflexivity|].
  rewrite IH, <- seq_shift, map_map. reflexivity.
Qed.

Lemma add_rows (n : nat) (f g : nat -> R) :
  Np.add (map f (seq 0 n)) (map g (seq 0 n))
  = Some (map (fun i => f i + g i) (seq 0 n)).
Proof.
  unfold Np.add. generalize 0%nat. induction n as [|n IH]; intros k; simpl;
    [reflexivity|]. rewrite IH. reflexivity.
Qed.

Lemma as_rows (n : nat) (xs : list R) :
  length xs = n -> xs = map (fun i => nth i xs 0) (seq 0 n).
Proof. intros H. rewrite <- (map_rows (fun x => x) n xs H). symmetry; apply map_id. Qed.

Lemma map_rows_ext (n : nat) (f g : nat -> R) :
  (forall i, (i < n)%nat -> f i = g i) -> map f (seq 0 n) = map g (seq 0 n).
Proof.
  intros H. apply map_ext_in. intros i Hi. apply in_seq in Hi. apply H; lia.
Qed.

(** [get_sample_1] reseeds, draws twice and puts one new frame on the
    heap; the frame depends on the arguments only. *)
Lemma get_sample_1_run (n : nat) (beta : R) (seed : option N) (w : World) :
  Example1.get_sample_1 n beta seed w
  = Some (length (heap w),
          mkWorld (state_after n [10; 1] (seed_state (default_arg seed 123%N)))
                  (heap w ++ [sample_1_frame n beta (default_arg seed 123%N)])).
Proof.
  unfold Example1.get_sample_1. set (sd := default_arg seed 123%N).
  unfold bind at 1, np_random_seed.
  run_with (np_random_normal_run 10 n (seed_state sd) (heap w)).
  run_with (np_random_normal_run 1 n _ (heap w)).
  pose proof (draw_after_length n [] 10 (seed_state sd)) as HX.
  pose proof (draw_after_length n [10] 1 (seed_state sd)) as HE.
  unfold draw_after in HX, HE; simpl in HX, HE.
  run_with (lift_run _ _ _ (affine_rows beta n _ _ HX HE)).
  unfold bind, lift, pd_DataFrame.
  match goal with
  | |- context [Np.vstack ?a ?b] =>
      pose proof (from_array_pair a b n "Y" "X" "Identifier"
                    ltac:(rewrite length_map, length_seq; reflexivity) HX) as F
  end.
  destruct (Np.vstack _ _) as [st|]; [|discriminate].
  destruct (Np.transpose st) as [data|]; [|discriminate].
  rewrite F. reflexivity.
Qed.

End Sampling.

Section Sampling2.

Context {G : Generator}.

Lemma add_map_rows (n : nat) (f : nat -> R) (ys : list R) :
  length ys = n ->
  Np.add (map f (seq 0 n)) ys = Some (map (fun i => f i + nth i ys 0) (seq 0 n)).
Proof. intros H. rewrite (as_rows n ys H) at 1. apply add_rows. Qed.

Lemma add_rows_map (n : nat) (xs : list R) (g : nat -> R) :
  length xs = n ->
  Np.add xs (map g (seq 0 n)) = Some (map (fun i => nth i xs 0 + g i) (seq 0 n)).
Proof. intros H. rewrite (as_rows n xs H) at 1. apply add_rows. Qed.

Lemma select_sum_two (idx : Pd.Index) cols (l1 l2 : string) (z1 z2 : list R)
      (n : nat) :
  Pd.lookup l1 cols = Some (Some z1) -> Pd.lookup l2 cols = Some (Some z2) ->
  length z1 = n -> length z2 = n -> length (Pd.labels idx) = n ->
  Pd.select_sum (Pd.mkDataFrame idx cols) [l1; l2]
  = Some (map (fun i => 0 + nth i z1 0 + nth i z2 0) (seq 0 n)).
Proof.
  intros H1 H2 L1 L2 Ln. unfold Pd.select_sum, Pd.nrows; simpl.
  rewrite H1, H2, Ln, repeat_rows.
  rewrite (add_map_rows n _ z1 L1), (add_map_rows n _ z2 L2). reflexivity.
Qed.

Ltac rows_length :=
  unfold Pd.nrows, Pd.canvas, Pd.Index_range; cbn [Pd.index Pd.labels];
  rewrite ?length_map, ?length_seq;
  solve [ reflexivity | assumption | apply draw_normal_length | apply draw_after_length ].

Tactic Notation "run_by" tactic3(tac) :=
  rewrite ?bind_assoc; erewrite bind_run; [| solve [tac]].

(** [get_sample_2] reseeds, creates one new frame on the heap and fills
    its four columns from five draws; the frame left there depends on the
    arguments only. *)
Lemma get_sample_2_run (n : nat) (beta : R) (seed : option N) (w : World) :
  Example2.get_sample_2 n beta seed w
  = Some (length (heap w),
          mkWorld (state_after n [10; 10; 10; 1; 1]
                     (seed_state (default_arg seed 123%N)))
                  (heap w ++ [sample_2_frame n beta (default_arg seed 123%N)])).
Proof.
  unfold Example2.get_sample_2. set (sd := default_arg seed 123%N).
  unfold bind at 1, np_random_seed.
  unfold pd_DataFrame_canvas. unfold bind at 1, alloc. cbn [heap rng].
  cbn [for_each].
  run_by (apply np_random_normal_run).
  change (fst (draw_normal 10 n (seed_state sd))) with (sample_2_Z1 n sd).
  run_by (apply df_setitem_last; rows_length).
  run_by (apply np_random_normal_run).
  change (fst (draw_normal 10 n (snd (draw_normal 10 n (seed_state sd)))))
    with (sample_2_Z2 n sd).
  run_by (apply df_setitem_last; rows_length).
  unfold ret at 1. unfold bind at 1.
  run_by (apply np_random_normal_run).
  change (fst (draw_normal 10 n (snd (draw_normal 10 n
            (snd (draw_normal 10 n (seed_state sd)))))))
    with (sample_2_C n sd).
  unfold Pd.canvas.
  cbn [Pd.assign Pd.columns Pd.index map String.eqb Ascii.eqb Bool.eqb].
  run_by (apply df_select_sum_last;
          apply (select_sum_two _ _ "Z1" "Z2" (sample_2_Z1 n sd) (sample_2_Z2 n sd) n);
          solve [reflexivity | rows_length]).
  run_by (apply lift_run; apply add_rows_map; rows_length).
  run_by (apply np_random_normal_run).
  change (fst (draw_normal 1 n (snd (draw_normal 10 n (snd (draw_normal 10 n
            (snd (draw_normal 10 n (seed_state sd)))))))))
    with (sample_2_nu n sd).
  run_by (apply lift_run; apply add_map_rows; rows_length).
  assert (EX : map (fun i => nth i (sample_2_C n sd) 0
                             + (0 + nth i (sample_2_Z1 n sd) 0
                                + nth i (sample_2_Z2 n sd) 0)
                             + nth i (sample_2_nu n sd) 0) (seq 0 n)
               = sample_2_X n sd)
    by (apply map_rows_ext; intros; ring).
  cbv beta. rewrite EX.
  assert (LX : length (sample_2_X n sd) = n)
    by (unfold sample_2_X; rewrite length_map, length_seq; reflexivity).
  run_by (apply df_setitem_last; rows_length).
  cbn [Pd.assign Pd.columns Pd.index map String.eqb Ascii.eqb Bool.eqb].
  run_by (apply np_random_normal_run).
  change (fst (draw_normal 1 n (snd (draw_normal 1 n (snd (draw_normal 10 n
            (snd (draw_normal 10 n (snd (draw_normal 10 n (seed_state sd)))))))))))
    with (sample_2_u n sd).
  run_by (apply lift_run;
          apply (map2_rows Rplus n (sample_2_C n sd) (sample_2_u n sd));
          rows_length).
  change (map (fun i => nth i (sample_2_C n sd) 0 + nth i (sample_2_u n sd) 0)
              (seq 0 n)) with (sample_2_U n sd).
  run_by (apply df_getitem_last; reflexivity).
  assert (LU : length (sample_2_U n sd) = n)
    by (unfold sample_2_U; rewrite length_map, length_seq; reflexivity).
  run_by (apply lift_run; apply (affine_rows beta n _ _ LX LU)).
  run_by (apply df_setitem_last; rows_length).
  reflexivity.
Qed.

End Sampling2.

(** * Properties of the notebook *)

(** ** Moments and criteria *)

(** C2.  For every data frame with columns Y and X and every [beta], the
    Example-1 [get_moments(df, beta)] returns the mean over all rows of
    [X * (Y - (1 + beta * X))], the empirical moment of [X] times the
    residual of the linear model with intercept 1 and slope [beta]. *)
Theorem example1_get_moments_is_mean_of_X_times_residual
    (G : Generator) (w : World) (df : ref) (d : Pd.DataFrame) (beta : R)
    (ys xs : list R) :
  frame_at w df = Some d -> Pd.well_formed d = true ->
  Pd.getitem d "Y" = Some ys -> Pd.getitem d "X" = Some xs ->
  result_of (Example1.get_moments df beta) w
  = mean_over (fun row => snd row * residual beta (fst row) (snd row))
              (rows2 ys xs).
Proof.
  intros Hd Hwf HY HX.
  assert (Hlen : length ys = length xs).
  { rewrite (getitem_length d "Y" ys Hwf HY), (getitem_length d "X" xs Hwf HX).
    reflexivity. }
  unfold result_of.
  rewrite (example1_get_moments_run w df d beta ys xs Hd HY HX Hlen).
  unfold lift. destruct (mean_over _ _); reflexivity.
Qed.

Lemma example1_get_moments_on_line_world :
  frame_at line_world 0%nat = Some line_frame /\
  Pd.well_formed line_frame = true /\
  Pd.getitem line_frame "Y" = Some [3; 5] /\
  Pd.getitem line_frame "X" = Some [1; 2] /\
  result_of (Example1.get_moments 0%nat 2) line_world
  = mean_over (fun row => snd row * residual 2 (fst row) (snd row))
              (rows2 [3; 5] [1; 2]).
Proof.
  do 4 (split; [reflexivity|]).
  apply (example1_get_moments_is_mean_of_X_times_residual
           counting_generator line_world 0%nat line_frame 2 [3; 5] [1; 2]);
    reflexivity.
Defined.

(** C6.  The Example-1 criterion is the quadratic form [m * W * m] of the
    moment for a weighting matrix [W], the same for every data frame and
    every [beta]: the 1x1 identity.  The code computes it as the square of
    the mean of [get_moments(df, beta)]. *)
Theorem example1_criterion_is_quadratic_form_of_moment (G : Generator) :
  exists W : Np.matrix,
    forall (w : World) (df : ref) (beta : R),
      result_of (Example1.criterion_function_gmm beta df) w
      = match result_of (Example1.get_moments df beta) w with
        | Some m =>
            match Np.dot_vm [m] W with
            | Some mW => Np.dot_vv mW [m]
            | None => None
            end
        | None => None
        end
      /\ result_of (Example1.criterion_function_gmm beta df) w
         = match result_of (Example1.get_moments df beta) w with
           | Some m => option_map Np.square (Np.mean [m])
           | None => None
           end
      /\ result_of (Example1.criterion_function_gmm beta df) w
         = option_map (fun m => m * m) (result_of (Example1.get_moments df beta) w).
Proof.
  exists (Np.identity 1). intros w df beta.
  unfold result_of, Example1.criterion_function_gmm, bind.
  destruct (Example1.get_moments df beta w) as [[m w1]|]; [|simpl; auto].
  rewrite mean_singleton.
  unfold Np.dot_vm, Np.dot_vv, Np.mul, Np.sum, Np.square, lift, ret; simpl.
  repeat split; f_equal; field.
Qed.

(** C1.  For every data frame with columns Y, X, Z1, Z2, every [beta] and
    every 2x2 weighting matrix [W], the Example-2 criterion returns the
    quadratic form [m^T W m], where [m] is the vector of the means of
    [Z1 * r] and [Z2 * r] that the Example-2 [get_moments] returns, with
    [r = Y - (1 + beta * X)]; without [W], the matrix is the 2x2 identity. *)
Theorem example2_criterion_is_quadratic_form_of_moments
    (G : Generator) (w : World) (df : ref) (d : Pd.DataFrame) (beta : R)
    (ys xs z1s z2s : list R) (w00 w01 w10 w11 : R) :
  frame_at w df = Some d -> Pd.well_formed d = true ->
  Pd.getitem d "Y" = Some ys -> Pd.getitem d "X" = Some xs ->
  Pd.getitem d "Z1" = Some z1s -> Pd.getitem d "Z2" = Some z2s ->
  result_of (Example2.get_moments df beta) w
  = option_map (fun m => [fst m; snd m]) (moment_vector beta ys xs z1s z2s)
  /\ result_of (Example2.criterion_function_gmm beta df
                  (Some [[w00; w01]; [w10; w11]])) w
     = option_map (fun m => quadratic_form2 (fst m) (snd m) w00 w01 w10 w11)
                  (moment_vector beta ys xs z1s z2s)
  /\ result_of (Example2.criterion_function_gmm beta df None) w
     = option_map (fun m => quadratic_form2 (fst m) (snd m) 1 0 0 1)
                  (moment_vector beta ys xs z1s z2s).
Proof.
  intros Hd Hwf HY HX HZ1 HZ2.
  pose proof (getitem_length d "Y" ys Hwf HY) as LY.
  pose proof (getitem_length d "X" xs Hwf HX) as LX.
  pose proof (getitem_length d "Z1" z1s Hwf HZ1) as L1.
  pose proof (getitem_length d "Z2" z2s Hwf HZ2) as L2.
  unfold result_of. repeat split.
  - rewrite (example2_get_moments_run w df d beta ys xs z1s z2s) by congruence.
    destruct (moment_vector _ _ _ _ _); reflexivity.
  - rewrite (example2_criterion_run w df d beta ys xs z1s z2s) by congruence.
    destruct (moment_vector _ _ _ _ _); reflexivity.
  - change (Example2.criterion_function_gmm beta df None)
      with (Example2.criterion_function_gmm beta df (Some [[1; 0]; [0; 1]])).
    rewrite (example2_criterion_run w df d beta ys xs z1s z2s) by congruence.
    destruct (moment_vector _ _ _ _ _); reflexivity.
Qed.

Lemma example2_criterion_on_line_world :
  frame_at line_world 0%nat = Some line_frame /\
  Pd.well_formed line_frame = true /\
  result_of (Example2.criterion_function_gmm 2 0%nat (Some [[2; 1]; [1; 3]]))
            line_world
  = option_map (fun m => quadratic_form2 (fst m) (snd m) 2 1 1 3)
               (moment_vector 2 [3; 5] [1; 2] [1; 0] [0; 1]).
Proof.
  do 2 (split; [reflexivity|]).
  apply (example2_criterion_is_quadratic_form_of_moments
           counting_generator line_world 0%nat line_frame 2
           [3; 5] [1; 2] [1; 0] [0; 1] 2 1 1 3); reflexivity.
Defined.

(** C9.  Evaluating [get_moments] (either definition),
    [criterion_function_gmm] (either definition) and
    [criterion_function_mle] leaves the world as it was: no column, row or
    index entry of the data frame, nor of any other frame, is modified. *)
Theorem moments_and_criteria_leave_the_frame_unchanged
    (G : Generator) (F : Np.NormalDensity) (df : ref) (beta : R)
    (W : option Np.matrix) (w w' : World) :
  (forall m, Example1.get_moments df beta w = Some (m, w') -> w' = w) /\
  (forall m, Example2.get_moments df beta w = Some (m, w') -> w' = w) /\
  (forall c, Example1.criterion_function_gmm beta df w = Some (c, w') -> w' = w) /\
  (forall c, Example2.criterion_function_gmm beta df W w = Some (c, w') -> w' = w) /\
  (forall c, Example1.criterion_function_mle beta df w = Some (c, w') -> w' = w).
Proof.
  assert (R1 : read_only (Example1.get_moments df beta))
    by (unfold Example1.get_moments; prove_read_only).
  assert (R2 : read_only (Example2.get_moments df beta))
    by (unfold Example2.get_moments; prove_read_only).
  assert (R3 : read_only (Example1.criterion_function_gmm beta df))
    by (unfold Example1.criterion_function_gmm; prove_read_only; exact R1).
  assert (R4 : read_only (Example2.criterion_function_gmm beta df W))
    by (unfold Example2.criterion_function_gmm; prove_read_only; exact R2).
  assert (R5 : read_only (Example1.criterion_function_mle beta df))
    by (unfold Example1.criterion_function_mle, Example1.get_residuals;
        prove_read_only).
  repeat split; intros v H; [ apply (R1 w v) | apply (R2 w v) | apply (R3 w v)
                            | apply (R4 w v) | apply (R5 w v) ]; exact H.
Qed.

Lemma moments_leave_line_world_unchanged :
  exists m w',
    Example1.get_moments 0%nat 2 line_world = Some (m, w') /\ w' = line_world.
Proof.
  eexists; eexists; split; [reflexivity|].
  eapply (proj1 (moments_and_criteria_leave_the_frame_unchanged
                   counting_generator flushing_density 0%nat 2 None line_world _)).
  reflexivity.
Defined.

(** ** The likelihood criterion and its guard *)

(** C3, as stated, fails: on the one observation of [far_world], whose
    residual is 10000, the density is zero and the unmodified log density
    minus infinity, whose mean is no real number; [criterion_function_mle]
    returns [10e6], not the negative mean of the unmodified log density. *)
Lemma mle_criterion_is_not_the_unmodified_mean :
  frame_at far_world 0%nat = Some far_frame /\
  map (fun row => log_density (residual 0 (fst row) (snd row))) (rows2 [10001] [0])
  = [Np.MinusInf] /\
  result_of (Example1.criterion_function_mle 0 0%nat) far_world = Some 10e6 /\
  result_of (Example1.criterion_function_mle 0 0%nat) far_world
  <> option_map Ropp
       (Np.mean_ext
          (map (fun row => log_density (residual 0 (fst row) (snd row)))
               (rows2 [10001] [0]))).
Proof.
  assert (Hz : Np.norm_pdf1 (residual 0 10001 0) = 0).
  { apply Np.norm_pdf1_far. unfold residual. lra. }
  assert (Hterms : map (fun row => log_density (residual 0 (fst row) (snd row)))
                       (rows2 [10001] [0]) = [Np.MinusInf]).
  { unfold rows2, log_density. cbn [combine map fst snd].
    rewrite Hz, log1_zero. reflexivity. }
  assert (Hrun : result_of (Example1.criterion_function_mle 0 0%nat) far_world
                 = Some 10e6).
  { unfold result_of.
    rewrite (example1_mle_run far_world 0%nat far_frame 0 [10001] [0])
      by reflexivity.
    unfold mean_over, rows2, clipped_log_density. cbn [combine map fst snd].
    rewrite Hz. destruct (Rlt_dec 0 0) as [Hlt|_]; [lra|].
    unfold Np.mean, Np.sum; simpl. f_equal. field. }
  split; [reflexivity|]. split; [exact Hterms|]. split; [exact Hrun|].
  rewrite Hrun, Hterms. discriminate.
Qed.

(** C3, amended.  [criterion_function_mle(beta, df)] returns the negative
    mean of the log normal density of the residuals [Y - (1 + beta * X)],
    each term clipped from below at [-10e6], a term whose density is zero
    being the bound itself; where every density is positive and no log
    density lies below [-10e6], that is the negative mean of the unmodified
    log density. *)
Theorem mle_criterion_is_negative_mean_of_clipped_log_density
    (G : Generator) (F : Np.NormalDensity) (w : World) (df : ref)
    (d : Pd.DataFrame) (beta : R) (ys xs : list R) :
  frame_at w df = Some d -> Pd.well_formed d = true ->
  Pd.getitem d "Y" = Some ys -> Pd.getitem d "X" = Some xs ->
  let density_of := fun row : R * R =>
    Np.norm_pdf1 (residual beta (fst row) (snd row)) in
  let clipped := fun row : R * R =>
    if Rlt_dec 0 (density_of row)
    then Rmax (-10e6) (ln (density_of row))
    else -10e6 in
  result_of (Example1.criterion_function_mle beta df) w
  = option_map Ropp (mean_over clipped (rows2 ys xs))
  /\ (Forall (fun row => 0 < density_of row /\ -10e6 <= ln (density_of row))
             (rows2 ys xs) ->
      map (fun row => log_density (residual beta (fst row) (snd row))) (rows2 ys xs)
      = map (fun row => Np.Real (ln (density_of row))) (rows2 ys xs)
      /\ result_of (Example1.criterion_function_mle beta df) w
         = option_map Ropp (mean_over (fun row => ln (density_of row)) (rows2 ys xs))).
Proof.
  intros Hd Hwf HY HX density_of clipped.
  assert (Hlen : length ys = length xs).
  { rewrite (getitem_length d "Y" ys Hwf HY), (getitem_length d "X" xs Hwf HX).
    reflexivity. }
  assert (Hrun : result_of (Example1.criterion_function_mle beta df) w
                 = option_map Ropp (mean_over clipped (rows2 ys xs))).
  { unfold result_of. rewrite (example1_mle_run w df d beta ys xs Hd HY HX Hlen).
    unfold lift. fold (mean_over clipped (rows2 ys xs)).
    change (mean_over (fun row => clipped_log_density
                                    (residual beta (fst row) (snd row)))
                      (rows2 ys xs))
      with (mean_over clipped (rows2 ys xs)).
    destruct (option_map Ropp _); reflexivity. }
  split; [exact Hrun|].
  intros Hall. split.
  - apply map_ext_in. intros row Hin. rewrite Forall_forall in Hall.
    destruct (Hall row Hin) as [Hp _]. unfold log_density.
    apply log1_positive. exact Hp.
  - rewrite Hrun. unfold mean_over. f_equal. f_equal.
    apply map_ext_Forall. eapply Forall_impl; [|exact Hall].
    intros row [Hp Hlo]. unfold clipped.
    destruct (Rlt_dec 0 (density_of row)); [|contradiction].
    apply Rmax_right. exact Hlo.
Qed.

Lemma mle_criterion_on_far_world :
  frame_at far_world 0%nat = Some far_frame /\
  Pd.well_formed far_frame = true /\
  result_of (Example1.criterion_function_mle 0 0%nat) far_world
  = option_map Ropp
      (mean_over (fun row => clipped_log_density (residual 0 (fst row) (snd row)))
                 (rows2 [10001] [0])).
Proof.
  do 2 (split; [reflexivity|]).
  apply (proj1 (mle_criterion_is_negative_mean_of_clipped_log_density
                  counting_generator flushing_density far_world 0%nat far_frame 0
                  [10001] [0] eq_refl eq_refl eq_refl eq_refl)).
Defined.

(** C10, as stated, fails: on a data frame without observations the mean is
    not a number, and [criterion_function_mle] returns no finite value. *)
Lemma mle_criterion_of_no_observation_is_not_a_number :
  frame_at empty_world 0%nat = Some empty_frame /\
  Pd.getitem empty_frame "Y" = Some [] /\
  Pd.getitem empty_frame "X" = Some [] /\
  result_of (Example1.criterion_function_mle 0 0%nat) empty_world = None /\
  ~ (exists c, result_of (Example1.criterion_function_mle 0 0%nat) empty_world
               = Some c /\ c <= 10e6).
Proof.
  assert (Hrun : result_of (Example1.criterion_function_mle 0 0%nat) empty_world
                 = None).
  { unfold result_of.
    rewrite (example1_mle_run empty_world 0%nat empty_frame 0 [] [])
      by reflexivity.
    reflexivity. }
  do 3 (split; [reflexivity|]). split; [exact Hrun|].
  intros (c & Hc & _). rewrite Hrun in Hc. discriminate.
Qed.

(** C10, amended.  For every data frame with at least one observation and
    every [beta], every per-observation term entering the MLE criterion is
    clipped from below at [-10e6], so [criterion_function_mle(beta, df)]
    returns a finite value no greater than [10e6], even for observations
    whose normal density evaluates to zero and whose log would otherwise be
    negative infinity: their term is [-10e6]. *)
Theorem mle_criterion_is_bounded_by_its_guard
    (G : Generator) (F : Np.NormalDensity) (w : World) (df : ref)
    (d : Pd.DataFrame) (beta : R) (ys xs : list R) :
  frame_at w df = Some d -> Pd.well_formed d = true ->
  Pd.getitem d "Y" = Some ys -> Pd.getitem d "X" = Some xs ->
  (0 < Pd.nrows d)%nat ->
  let residuals := map (fun row => residual beta (fst row) (snd row)) (rows2 ys xs) in
  exists terms c,
    Np.clip (Np.log (Np.norm_pdf residuals)) (-10e6) = map Np.Real terms
    /\ length terms = Pd.nrows d
    /\ Forall (fun t => -10e6 <= t) terms
    /\ (forall i, (i < Pd.nrows d)%nat ->
        Np.norm_pdf1 (nth i residuals 0) = 0 ->
        Np.log1 (Np.norm_pdf1 (nth i residuals 0)) = Np.MinusInf
        /\ nth i terms 0 = -10e6)
    /\ Np.mean terms = Some (- c)
    /\ result_of (Example1.criterion_function_mle beta df) w = Some c
    /\ c <= 10e6.
Proof.
  intros Hd Hwf HY HX Hrows residuals.
  pose proof (getitem_length d "Y" ys Hwf HY) as LY.
  pose proof (getitem_length d "X" xs Hwf HX) as LX.
  set (terms := map clipped_log_density residuals).
  assert (Hres : length residuals = Pd.nrows d).
  { unfold residuals, rows2. rewrite length_map, length_combine. lia. }
  assert (Hlen : length terms = Pd.nrows d).
  { unfold terms. rewrite length_map. exact Hres. }
  assert (Hall : Forall (fun t => -10e6 <= t) terms).
  { unfold terms. apply Forall_forall. intros t Ht. apply in_map_iff in Ht.
    destruct Ht as (r & <- & _). apply clipped_log_density_bound. }
  assert (Hne : terms <> []).
  { intros E. rewrite E in Hlen. simpl in Hlen. lia. }
  destruct (mean_lower_bound (-10e6) terms Hne Hall) as (m & Hm & Hbound).
  exists terms, (- m).
  split; [apply clipped_terms|]. split; [exact Hlen|]. split; [exact Hall|].
  split.
  { intros i Hi Hz. split; [rewrite Hz; apply log1_zero|].
    unfold terms. rewrite (nth_indep _ 0 (clipped_log_density 0))
      by (rewrite length_map; lia).
    rewrite (map_nth clipped_log_density). unfold clipped_log_density.
    rewrite Hz. destruct (Rlt_dec 0 0); [lra|reflexivity]. }
  split; [rewrite Hm; f_equal; ring|]. split; [|lra].
  unfold result_of.
  rewrite (example1_mle_run w df d beta ys xs Hd HY HX) by congruence.
  unfold mean_over.
  replace (map (fun row => clipped_log_density (residual beta (fst row) (snd row)))
               (rows2 ys xs)) with terms
    by (unfold terms, residuals; rewrite map_map; reflexivity).
  rewrite Hm. reflexivity.
Qed.

Lemma mle_criterion_bounded_on_far_world :
  frame_at far_world 0%nat = Some far_frame /\
  Pd.well_formed far_frame = true /\
  (0 < Pd.nrows far_frame)%nat /\
  Np.norm_pdf1 (residual 0 10001 0) = 0 /\
  exists c, result_of (Example1.criterion_function_mle 0 0%nat) far_world = Some c
            /\ c <= 10e6.
Proof.
  do 2 (split; [reflexivity|]). split; [unfold Pd.nrows; simpl; lia|].
  split; [apply Np.norm_pdf1_far; unfold residual; lra|].
  destruct (mle_criterion_is_bounded_by_its_guard
              counting_generator flushing_density far_world 0%nat far_frame 0
              [10001] [0] eq_refl eq_refl eq_refl eq_refl
              ltac:(unfold Pd.nrows; simpl; lia))
    as (terms & c & _ & _ & _ & _ & _ & Hc & Hle).
  exists c. split; assumption.
Defined.

(** ** The samples *)

(** C4.  For every [num_agents], [beta] and [seed], [get_sample_1] returns a
    data frame with exactly the columns Y and X and an index named
    Identifier holding 0 through [num_agents - 1], whose rows satisfy
    [Y = 1 + beta * X + eps]; [X] is the first draw after seeding, normal
    of scale 10, and [eps] the second, normal of scale 1. *)
Theorem get_sample_1_follows_its_process
    (G : Generator) (num_agents : nat) (beta : R) (seed : option N) (w : World) :
  let s0 := seed_state (default_arg seed 123%N) in
  let X := fst (draw_normal 10 num_agents s0) in
  let eps := fst (draw_normal 1 num_agents (snd (draw_normal 10 num_agents s0))) in
  exists df w' d,
    Example1.get_sample_1 num_agents beta seed w = Some (df, w')
    /\ frame_at w' df = Some d
    /\ Pd.column_labels d = ["Y"; "X"]
    /\ Pd.index d = Pd.mkIndex "Identifier" (map Z.of_nat (seq 0 num_agents))
    /\ Pd.getitem d "X" = Some X
    /\ Pd.getitem d "Y"
       = Some (map (fun i => 1 + beta * nth i X 0 + nth i eps 0) (seq 0 num_agents))
    /\ length X = num_agents /\ length eps = num_agents
    /\ Pd.well_formed d = true.
Proof.
  intros s0 X eps.
  exists (length (heap w)),
         (mkWorld (state_after num_agents [10; 1] s0)
                  (heap w ++ [sample_1_frame num_agents beta (default_arg seed 123%N)])),
         (sample_1_frame num_agents beta (default_arg seed 123%N)).
  split; [apply get_sample_1_run|].
  split; [unfold frame_at; simpl; apply nth_error_last|].
  repeat split; try reflexivity; try apply draw_normal_length.
  unfold Pd.well_formed, Pd.nrows, sample_1_frame, sample_1_Y, sample_1_X.
  cbn [Pd.columns Pd.index Pd.labels forallb snd].
  rewrite !length_map, !length_seq, Nat.eqb_refl.
  rewrite draw_after_length, Nat.eqb_refl.
  reflexivity.
Qed.

(** C5.  For every [num_agents], [beta] and [seed], [get_sample_2] returns a
    data frame with the columns Y, X, Z1, Z2 whose rows satisfy
    [X = C + Z1 + Z2 + nu] and [Y = 1 + beta * X + U] with [U = C + u]: the
    error [U] shares the component [C] with [X], while the instruments [Z1]
    and [Z2] are draws of their own, the first two after seeding, apart from
    the draws of [C], [nu] and [u] that follow them. *)
Theorem get_sample_2_follows_its_process
    (G : Generator) (num_agents : nat) (beta : R) (seed : option N) (w : World) :
  let n := num_agents in
  let s0 := seed_state (default_arg seed 123%N) in
  let s1 := snd (draw_normal 10 n s0) in
  let s2 := snd (draw_normal 10 n s1) in
  let s3 := snd (draw_normal 10 n s2) in
  let s4 := snd (draw_normal 1 n s3) in
  let Z1 := fst (draw_normal 10 n s0) in
  let Z2 := fst (draw_normal 10 n s1) in
  let C := fst (draw_normal 10 n s2) in
  let nu := fst (draw_normal 1 n s3) in
  let u := fst (draw_normal 1 n s4) in
  let X := map (fun i => nth i C 0 + nth i Z1 0 + nth i Z2 0 + nth i nu 0) (seq 0 n) in
  let U := map (fun i => nth i C 0 + nth i u 0) (seq 0 n) in
  let Y := map (fun i => 1 + beta * nth i X 0 + nth i U 0) (seq 0 n) in
  exists df w' d,
    Example2.get_sample_2 n beta seed w = Some (df, w')
    /\ frame_at w' df = Some d
    /\ Pd.column_labels d = ["Y"; "X"; "Z1"; "Z2"]
    /\ Pd.index d = Pd.mkIndex "Identifier" (map Z.of_nat (seq 0 n))
    /\ Pd.getitem d "Z1" = Some Z1 /\ Pd.getitem d "Z2" = Some Z2
    /\ Pd.getitem d "X" = Some X /\ Pd.getitem d "Y" = Some Y
    /\ length Z1 = n /\ length Z2 = n /\ length C = n
    /\ length nu = n /\ length u = n.
Proof.
  intros n s0 s1 s2 s3 s4 Z1 Z2 C nu u X U Y.
  exists (length (heap w)),
         (mkWorld (state_after n [10; 10; 10; 1; 1] s0)
                  (heap w ++ [sample_2_frame n beta (default_arg seed 123%N)])),
         (sample_2_frame n beta (default_arg seed 123%N)).
  split; [apply get_sample_2_run|].
  split; [unfold frame_at; simpl; apply nth_error_last|].
  repeat split; try reflexivity; apply draw_normal_length.
Qed.

(** C8.  Sample generation is deterministic in its arguments: whatever the
    state of the random generator and of the heap when the call is made,
    [get_sample_1] returns the same data frame for the same arguments, and
    so does [get_sample_2], because each call reseeds the generator before
    its first draw.  In particular a second call, made in the world the
    first call leaves, returns a frame identical to the first, which is
    still in place. *)
Theorem samples_depend_on_their_arguments_only
    (G : Generator) (num_agents : nat) (beta : R) (seed : option N) :
  exists d1 d2,
    (forall w, exists df w',
        Example1.get_sample_1 num_agents beta seed w = Some (df, w')
        /\ frame_at w' df = Some d1)
    /\ (forall w, exists df w',
        Example2.get_sample_2 num_agents beta seed w = Some (df, w')
        /\ frame_at w' df = Some d2)
    /\ (forall w, exists df w' df' w'',
        Example1.get_sample_1 num_agents beta seed w = Some (df, w')
        /\ Example1.get_sample_1 num_agents beta seed w' = Some (df', w'')
        /\ frame_at w'' df = Some d1 /\ frame_at w'' df' = Some d1)
    /\ (forall w, exists df w' df' w'',
        Example2.get_sample_2 num_agents beta seed w = Some (df, w')
        /\ Example2.get_sample_2 num_agents beta seed w' = Some (df', w'')
        /\ frame_at w'' df = Some d2 /\ frame_at w'' df' = Some d2).
Proof.
  exists (sample_1_frame num_agents beta (default_arg seed 123%N)),
         (sample_2_frame num_agents beta (default_arg seed 123%N)).
  repeat split; intros w.
  - eexists; eexists; split; [apply get_sample_1_run|].
    unfold frame_at; simpl; apply nth_error_last.
  - eexists; eexists; split; [apply get_sample_2_run|].
    unfold frame_at; simpl; apply nth_error_last.
  - do 4 eexists. split; [apply get_sample_1_run|].
    split; [apply get_sample_1_run|].
    unfold frame_at; simpl. split.
    + rewrite nth_error_before by (rewrite length_app; simpl; lia).
      apply nth_error_last.
    + apply nth_error_last.
  - do 4 eexists. split; [apply get_sample_2_run|].
    split; [apply get_sample_2_run|].
    unfold frame_at; simpl. split.
    + rewrite nth_error_before by (rewrite length_app; simpl; lia).
      apply nth_error_last.
    + apply nth_error_last.
Qed.

(** * Further properties of the notebook's functions *)

(** ** Means *)

Section MeanFacts.

Lemma sum_map_affine {A} (f g : A -> R) (c : R) (l : list A) :
  Np.sum (map (fun a => f a + c * g a) l)
  = Np.sum (map f l) + c * Np.sum (map g l).
Proof.
  unfold Np.sum. induction l as [|a l IH]; simpl; [ring|]. rewrite IH. ring.
Qed.

Lemma mean_defined (xs : list R) :
  xs <> [] -> Np.mean xs = Some (Np.sum xs / INR (length xs)).
Proof. destruct xs; [congruence|reflexivity]. Qed.

Lemma mean_undefined_iff (xs : list R) : Np.mean xs = None <-> xs = [].
Proof. destruct xs; simpl; split; intros; congruence. Qed.

Lemma mean_map_affine {A} (f g : A -> R) (c : R) (l : list A) (mf mg : R) :
  Np.mean (map f l) = Some mf -> Np.mean (map g l) = Some mg ->
  Np.mean (map (fun a => f a + c * g a) l) = Some (mf + c * mg).
Proof.
  destruct l as [|a l]; [discriminate|]. intros Hf Hg.
  rewrite mean_defined in * by discriminate.
  assert (Ef : mf = Np.sum (map f (a :: l)) / INR (length (map f (a :: l))))
    by congruence.
  assert (Eg : mg = Np.sum (map g (a :: l)) / INR (length (map g (a :: l))))
    by congruence.
  rewrite Ef, Eg, sum_map_affine, !length_map.
  f_equal. field. apply not_0_INR. discriminate.
Qed.

Lemma mean_upper_bound (hi : R) (xs : list R) :
  xs <> [] -> Forall (fun x => x <= hi) xs ->
  exists m, Np.mean xs = Some m /\ m <= hi.
Proof.
  intros Hne Hall.
  assert (Hopp : Forall (fun x => - hi <= x) (map Ropp xs)).
  { apply Forall_forall. intros y Hy. apply in_map_iff in Hy.
    destruct Hy as (x & <- & Hx). rewrite Forall_forall in Hall.
    specialize (Hall x Hx). lra. }
  destruct (mean_lower_bound (- hi) (map Ropp xs)) as (m & Hm & Hb); auto.
  { destruct xs; [congruence|discriminate]. }
  exists (- m). split; [|lra].
  assert (E : Np.sum (map Ropp xs) = - Np.sum xs).
  { unfold Np.sum. clear. induction xs as [|x xs IH]; simpl; [ring|].
    rewrite IH. ring. }
  rewrite mean_defined in Hm by (destruct xs; [congruence|discriminate]).
  rewrite mean_defined by assumption.
  assert (Em : m = Np.sum (map Ropp xs) / INR (length (map Ropp xs)))
    by congruence.
  rewrite Em, E, length_map. f_equal. field.
  apply not_0_INR. destruct xs; [congruence|discriminate].
Qed.

Lemma mean_of_equal_terms (c : R) (xs : list R) :
  xs <> [] -> Forall (fun x => x = c) xs -> Np.mean xs = Some c.
Proof.
  intros Hne Hall.
  destruct (mean_lower_bound c xs Hne) as (m & Hm & Hlo).
  { eapply Forall_impl; [|exact Hall]. intros; simpl in *; lra. }
  destruct (mean_upper_bound c xs Hne) as (m' & Hm' & Hhi).
  { eapply Forall_impl; [|exact Hall]. intros; simpl in *; lra. }
  assert (m' = m) by congruence. subst m'. rewrite Hm. f_equal. lra.
Qed.

Lemma combine_rows {A} (g : nat -> A) (n : nat) (xs : list R) :
  length xs = n ->
  combine (map g (seq 0 n)) xs = map (fun i => (g i, nth i xs 0)) (seq 0 n).
Proof.
  revert g xs. induction n as [|n IH]; intros g [|x xs] H; simpl in *;
    try discriminate; [reflexivity|].
  rewrite <- seq_shift, !map_map. rewrite (IH (fun i => g (S i)) xs) by lia.
  reflexivity.
Qed.

Lemma combine_rows_l {A} (g : nat -> A) (n : nat) (xs : list R) :
  length xs = n ->
  combine xs (map g (seq 0 n)) = map (fun i => (nth i xs 0, g i)) (seq 0 n).
Proof.
  revert g xs. induction n as [|n IH]; intros g [|x xs] H; simpl in *;
    try discriminate; [reflexivity|].
  rewrite <- seq_shift, !map_map. rewrite (IH (fun i => g (S i)) xs) by lia.
  reflexivity.
Qed.

Lemma residual_rows (beta : R) (n : nat) (ys xs : list R) :
  length ys = n -> length xs = n ->
  Np.sub ys (Np.sadd 1 (Np.smul beta xs))
  = Some (map (fun i => nth i ys 0 - (1 + beta * nth i xs 0)) (seq 0 n)).
Proof.
  unfold Np.sub, Np.sadd, Np.smul.
  revert ys xs; induction n as [|n IH]; intros [|y ys] [|x xs] Hy Hx;
    simpl in *; try discriminate; [reflexivity|].
  rewrite (IH ys xs) by lia. simpl. rewrite <- seq_shift, map_map. reflexivity.
Qed.

Lemma map2_mismatch (f : R -> R -> R) (xs ys : list R) :
  length xs <> length ys -> Np.map2 f xs ys = None.
Proof.
  revert ys; induction xs as [|x xs IH]; intros [|y ys] H; simpl in *;
    try congruence.
  rewrite IH by lia. reflexivity.
Qed.

End MeanFacts.

(** ** Reading the columns *)

Section Reading.

Context {G : Generator}.

Lemma bind_none {A B} (m : M A) (k : A -> M B) (w : World) :
  m w = None -> bind m k w = None.
Proof. unfold bind; intros ->; reflexivity. Qed.

Lemma df_getitem_none (w : World) (df : ref) (d : Pd.DataFrame) (l : string) :
  frame_at w df = Some d -> Pd.getitem d l = None -> df_getitem df l w = None.
Proof.
  unfold frame_at, df_getitem, deref, bind, lift. intros -> ->. reflexivity.
Qed.

Lemma frame_at_last (s : rng_state) (h : list Pd.DataFrame) (d : Pd.DataFrame) :
  frame_at (mkWorld s (h ++ [d])) (length h) = Some d.
Proof. unfold frame_at; simpl. apply nth_error_last. Qed.

Lemma example2_get_moments_length (df : ref) (b : R) (w w' : World) (ms : list R) :
  Example2.get_moments df b w = Some (ms, w') -> length ms = 2%nat.
Proof.
  unfold Example2.get_moments. intros H.
  do 3 (apply bind_inv in H; destruct H as (? & ? & _ & H)).
  simpl for_each in H.
  apply bind_inv in H; destruct H as (acc1 & w1 & H1 & H).
  apply bind_inv in H; destruct H as (acc2 & w2 & H2 & H).
  do 3 (apply bind_inv in H1; destruct H1 as (? & ? & _ & H1)).
  do 3 (apply bind_inv in H2; destruct H2 as (? & ? & _ & H2)).
  unfold ret in *. inversion H1; inversion H2; inversion H; subst. reflexivity.
Qed.

End Reading.

(** X1.  On a data frame with columns Y and X, [get_residuals(df, beta)]
    returns one residual per row, [Y - (1 + beta * X)] of that row, and
    leaves the world as it was. *)
Theorem get_residuals_returns_one_residual_per_row
    (G : Generator) (w : World) (df : ref) (d : Pd.DataFrame) (beta : R)
    (ys xs : list R) :
  frame_at w df = Some d -> Pd.well_formed d = true ->
  Pd.getitem d "Y" = Some ys -> Pd.getitem d "X" = Some xs ->
  Example1.get_residuals df beta w
  = Some (map (fun i => nth i ys 0 - (1 + beta * nth i xs 0)) (seq 0 (Pd.nrows d)),
          w).
Proof.
  intros Hd Hwf HY HX. unfold Example1.get_residuals.
  run_with (df_getitem_run _ _ _ _ _ Hd HY).
  run_with (df_getitem_run _ _ _ _ _ Hd HX).
  rewrite (residual_rows beta (Pd.nrows d) ys xs
             (getitem_length d "Y" ys Hwf HY) (getitem_length d "X" xs Hwf HX)).
  reflexivity.
Qed.

Lemma get_residuals_on_line_world :
  frame_at line_world 0%nat = Some line_frame /\
  Pd.well_formed line_frame = true /\
  Example1.get_residuals 0%nat 2 line_world
  = Some (map (fun i => nth i [3; 5] 0 - (1 + 2 * nth i [1; 2] 0)) (seq 0 2),
          line_world).
Proof.
  do 2 (split; [reflexivity|]).
  apply (get_residuals_returns_one_residual_per_row
           counting_generator line_world 0%nat line_frame 2 [3; 5] [1; 2]);
    reflexivity.
Defined.

(** X2.  On a data frame in which column Y or column X is absent, or not
    yet assigned, none of the Example-1 functions returns a number. *)
Theorem example1_functions_need_columns_Y_and_X
    (G : Generator) (F : Np.NormalDensity) (w : World) (df : ref)
    (d : Pd.DataFrame) (beta : R) :
  frame_at w df = Some d ->
  Pd.getitem d "Y" = None \/ Pd.getitem d "X" = None ->
  Example1.get_moments df beta w = None
  /\ Example1.get_residuals df beta w = None
  /\ Example1.criterion_function_gmm beta df w = None
  /\ Example1.criterion_function_mle beta df w = None.
Proof.
  intros Hd Hmiss.
  assert (Hm : Example1.get_moments df beta w = None
               /\ Example1.get_residuals df beta w = None).
  { unfold Example1.get_moments, Example1.get_residuals.
    destruct (Pd.getitem d "Y") as [ys|] eqn:HY.
    - destruct Hmiss as [Hmiss|HX]; [discriminate|].
      split.
      + run_with (df_getitem_run _ _ _ _ _ Hd HY).
        apply bind_none. apply (df_getitem_none w df d "X" Hd HX).
      + run_with (df_getitem_run _ _ _ _ _ Hd HY).
        apply bind_none. apply (df_getitem_none w df d "X" Hd HX).
    - split; apply bind_none; apply (df_getitem_none w df d "Y" Hd HY). }
  destruct Hm as [Hm Hr]. repeat split; auto.
  - unfold Example1.criterion_function_gmm. apply bind_none; exact Hm.
  - unfold Example1.criterion_function_mle. apply bind_none; exact Hr.
Qed.

Lemma example1_functions_on_a_blank_canvas :
  let w := mkWorld (G := counting_generator) 0%nat
             [Pd.canvas ["Y"; "X"] (Pd.Index_range 2 "Identifier")] in
  Pd.getitem (Pd.canvas ["Y"; "X"] (Pd.Index_range 2 "Identifier")) "Y" = None
  /\ Example1.criterion_function_mle 1 0%nat w = None.
Proof.
  split; [reflexivity|].
  apply (example1_functions_need_columns_Y_and_X counting_generator
           flushing_density
           (mkWorld (G := counting_generator) 0%nat
              [Pd.canvas ["Y"; "X"] (Pd.Index_range 2 "Identifier")])
           0%nat (Pd.canvas ["Y"; "X"] (Pd.Index_range 2 "Identifier")) 1
           eq_refl (or_introl eq_refl)).
Defined.

(** X3.  The Example-2 [get_moments] and [criterion_function_gmm] read the
    instruments: applied to a sample of [get_sample_1], which has no column
    Z1, they raise, whatever the sample size and the weighting matrix. *)
Theorem example2_functions_fail_on_an_example1_sample
    (G : Generator) (num_agents : nat) (beta b : R) (seed : option N)
    (W : option Np.matrix) (w : World) :
  (df <- Example1.get_sample_1 num_agents beta seed ;;
   Example2.get_moments df b) w = None
  /\ (df <- Example1.get_sample_1 num_agents beta seed ;;
      Example2.criterion_function_gmm b df W) w = None.
Proof.
  assert (Hm : (df <- Example1.get_sample_1 num_agents beta seed ;;
                Example2.get_moments df b) w = None).
  { run_with (get_sample_1_run num_agents beta seed w).
    unfold Example2.get_moments. set (sd := default_arg seed 123%N).
    run_with (df_getitem_last _ (heap w) (sample_1_frame num_agents beta sd) "Y"
                _ eq_refl).
    run_with (df_getitem_last _ (heap w) (sample_1_frame num_agents beta sd) "X"
                _ eq_refl).
    assert (LY : length (sample_1_Y num_agents beta sd) = num_agents)
      by (unfold sample_1_Y; rewrite length_map, length_seq; reflexivity).
    assert (LX : length (sample_1_X num_agents sd) = num_agents)
      by apply draw_after_length.
    run_with (lift_run _ _ _ (residual_rows b num_agents _ _ LY LX)).
    simpl for_each. rewrite !bind_assoc. apply bind_none.
    apply (df_getitem_none _ _ (sample_1_frame num_agents beta sd) "Z1");
      [apply frame_at_last | reflexivity]. }
  split; [exact Hm|].
  unfold Example2.criterion_function_gmm. rewrite <- bind_assoc.
  apply bind_none. exact Hm.
Qed.

(** X4.  The Example-2 criterion needs a 2x2 weighting matrix: with a matrix
    whose number of rows is not 2, or whose rows are not 2 wide, the two
    products do not conform and the criterion raises. *)
Theorem example2_criterion_needs_a_2x2_matrix
    (G : Generator) (w : World) (df : ref) (b : R) (W : Np.matrix) :
  length W <> 2%nat \/ Np.width W <> 2%nat ->
  Example2.criterion_function_gmm b df (Some W) w = None.
Proof.
  intros Hshape. unfold Example2.criterion_function_gmm, default_arg.
  unfold bind at 1.
  destruct (Example2.get_moments df b w) as [[ms w1]|] eqn:Hm; [|reflexivity].
  pose proof (example2_get_moments_length df b w w1 ms Hm) as Hlen.
  unfold bind, lift, Np.dot_vm, Np.transpose.
  destruct (Np.columns_from 0 (Np.width W) W) as [cols|] eqn:Hc; [|reflexivity].
  destruct (Nat.eqb (length ms) (length W)) eqn:Hrows; [|reflexivity].
  apply Nat.eqb_eq in Hrows.
  destruct Hshape as [Hshape|Hshape]; [congruence|].
  destruct (Np.dot_cols ms cols) as [mW|] eqn:Hd; [|reflexivity].
  assert (Lc : length cols = Np.width W).
  { clear -Hc. revert Hc. generalize 0%nat, (Np.width W). intros j k.
    revert j cols. induction k as [|k IH]; intros j cols H; simpl in H.
    - inversion H; reflexivity.
    - destruct (Np.column j W); [|discriminate].
      destruct (Np.columns_from (S j) k W) eqn:E; [|discriminate].
      inversion H; subst. simpl. f_equal. eapply IH; eauto. }
  assert (Lm : length mW = length cols).
  { clear -Hd. revert mW Hd. induction cols as [|c cols IH]; intros mW H;
      simpl in H.
    - inversion H; reflexivity.
    - destruct (Np.dot_vv ms c); [|discriminate].
      destruct (Np.dot_cols ms cols) eqn:E; [|discriminate].
      inversion H; subst. simpl. f_equal. apply IH; reflexivity. }
  unfold Np.dot_vv, Np.mul. rewrite map2_mismatch by lia. reflexivity.
Qed.

Lemma example2_criterion_with_a_3x3_matrix :
  Example2.criterion_function_gmm 2 0%nat (Some (Np.identity 3)) line_world = None.
Proof.
  apply (example2_criterion_needs_a_2x2_matrix counting_generator line_world
           0%nat 2 (Np.identity 3)).
  left. simpl. lia.
Defined.

(** ** The samplers' effects on the world *)

(** X5.  [get_sample_1] puts exactly one new frame on the heap, at the
    reference it returns, and changes no frame that was there; it leaves
    the global generator in the state reached from the seed by its two
    draws, whatever state the generator was in before. *)
Theorem get_sample_1_adds_one_frame_and_reseeds
    (G : Generator) (num_agents : nat) (beta : R) (seed : option N) (w : World) :
  exists df w',
    Example1.get_sample_1 num_agents beta seed w = Some (df, w')
    /\ df = length (heap w)
    /\ length (heap w') = S (length (heap w))
    /\ (forall r, (r < length (heap w))%nat -> frame_at w' r = frame_at w r)
    /\ rng w' = snd (draw_normal 1 num_agents
                       (snd (draw_normal 10 num_agents
                               (seed_state (default_arg seed 123%N))))).
Proof.
  do 2 eexists. split; [apply get_sample_1_run|]. simpl.
  repeat split.
  - rewrite length_app; simpl; lia.
  - intros r Hr. unfold frame_at; simpl. apply nth_error_before; exact Hr.
Qed.

(** X6.  [get_sample_2] puts exactly one new frame on the heap, at the
    reference it returns, and its column assignments change no frame that
    was there; the frame has [num_agents] rows and none of the four columns
    of the canvas is left blank; the global generator ends in the state
    reached from the seed by the five draws. *)
Theorem get_sample_2_fills_one_new_frame_and_reseeds
    (G : Generator) (num_agents : nat) (beta : R) (seed : option N) (w : World) :
  exists df w' d,
    Example2.get_sample_2 num_agents beta seed w = Some (df, w')
    /\ df = length (heap w)
    /\ length (heap w') = S (length (heap w))
    /\ (forall r, (r < length (heap w))%nat -> frame_at w' r = frame_at w r)
    /\ frame_at w' df = Some d
    /\ Pd.nrows d = num_agents
    /\ Pd.well_formed d = true
    /\ Forall (fun c => snd c <> None) (Pd.columns d)
    /\ rng w' = state_after num_agents [10; 10; 10; 1; 1]
                  (seed_state (default_arg seed 123%N)).
Proof.
  do 3 eexists. split; [apply get_sample_2_run|]. simpl.
  split; [reflexivity|]. split; [rewrite length_app; simpl; lia|].
  split; [intros r Hr; unfold frame_at; simpl; apply nth_error_before; exact Hr|].
  split; [apply frame_at_last|].
  set (sd := default_arg seed 123%N).
  assert (Hn : Pd.nrows (sample_2_frame num_agents beta sd) = num_agents).
  { unfold Pd.nrows, sample_2_frame; simpl. rewrite length_map, length_seq.
    reflexivity. }
  split; [exact Hn|]. split.
  - unfold Pd.well_formed. rewrite Hn. unfold sample_2_frame.
    cbn [Pd.columns forallb snd].
    unfold sample_2_Y, sample_2_X, sample_2_Z1, sample_2_Z2.
    rewrite !length_map, !length_seq, !draw_after_length, Nat.eqb_refl.
    reflexivity.
  - split; [|reflexivity].
    unfold sample_2_frame; simpl. repeat constructor; simpl; discriminate.
Qed.

(** ** The moment functions on a generated sample *)

Section OnSample1.

Context {G : Generator}.

Lemma sample_1_Y_length (n : nat) (beta : R) (sd : N) :
  length (sample_1_Y n beta sd) = n.
Proof. unfold sample_1_Y. rewrite length_map, length_seq. reflexivity. Qed.

Lemma sample_1_X_length (n : nat) (sd : N) : length (sample_1_X n sd) = n.
Proof. apply draw_after_length. Qed.

Lemma sample_1_eps_length (n : nat) (sd : N) : length (sample_1_eps n sd) = n.
Proof. apply draw_after_length. Qed.

(** On the frame of [get_sample_1], the product of [X] and the residual at
    slope [b] is [X * eps + (beta - b) * X^2] in every row. *)
Lemma sample_1_products (n : nat) (beta b : R) (sd : N) :
  map (fun row => snd row * residual b (fst row) (snd row))
      (rows2 (sample_1_Y n beta sd) (sample_1_X n sd))
  = map (fun i => nth i (sample_1_X n sd) 0 * nth i (sample_1_eps n sd) 0
                  + (beta - b) * (nth i (sample_1_X n sd) 0 * nth i (sample_1_X n sd) 0))
        (seq 0 n).
Proof.
  unfold rows2, sample_1_Y at 1.
  rewrite (combine_rows _ n (sample_1_X n sd) (sample_1_X_length n sd)), map_map.
  apply map_rows_ext. intros i _. unfold residual; simpl. ring.
Qed.

Lemma sample_1_get_moments_run (n : nat) (beta b : R) (sd : N)
      (s : rng_state) (h : list Pd.DataFrame) :
  Example1.get_moments (length h) b (mkWorld s (h ++ [sample_1_frame n beta sd]))
  = lift (Np.mean
            (map (fun i => nth i (sample_1_X n sd) 0 * nth i (sample_1_eps n sd) 0
                           + (beta - b) * (nth i (sample_1_X n sd) 0
                                           * nth i (sample_1_X n sd) 0))
                 (seq 0 n)))
         (mkWorld s (h ++ [sample_1_frame n beta sd])).
Proof.
  rewrite (example1_get_moments_run _ (length h) (sample_1_frame n beta sd) b
             (sample_1_Y n beta sd) (sample_1_X n sd));
    try reflexivity.
  - unfold mean_over. rewrite sample_1_products. reflexivity.
  - apply frame_at_last.
  - rewrite sample_1_Y_length, sample_1_X_length. reflexivity.
Qed.

Lemma mean_over_rows_defined (n : nat) (f : nat -> R) :
  (0 < n)%nat -> exists m, Np.mean (map f (seq 0 n)) = Some m.
Proof.
  intros Hn. destruct n as [|n]; [lia|]. eexists. reflexivity.
Qed.

Lemma mean_of_squares_nonneg (n : nat) (f : nat -> R) (m : R) :
  Np.mean (map (fun i => f i * f i) (seq 0 n)) = Some m -> 0 <= m.
Proof.
  intros Hm.
  assert (Hne : map (fun i => f i * f i) (seq 0 n) <> [])
    by (intros E; rewrite E in Hm; discriminate).
  destruct (mean_lower_bound 0 _ Hne) as (m' & Hm' & Hlo).
  - apply Forall_forall. intros y Hy. apply in_map_iff in Hy.
    destruct Hy as (i & <- & _). nra.
  - congruence.
Qed.

End OnSample1.

(** X7.  On a sample of [get_sample_1] with at least one row, generated
    with slope [beta], the Example-1 moment at slope [b] is
    [mean(X * eps) + (beta - b) * mean(X^2)]; at the true slope it is the
    sample mean of [X * eps], the quantity the notebook plots against the
    sample size. *)
Theorem example1_moment_of_a_sample_is_affine_in_the_slope
    (G : Generator) (num_agents : nat) (beta b : R) (seed : option N) (w : World) :
  let n := num_agents in
  let s0 := seed_state (default_arg seed 123%N) in
  let X := fst (draw_normal 10 n s0) in
  let eps := fst (draw_normal 1 n (snd (draw_normal 10 n s0))) in
  (0 < n)%nat ->
  exists mxe mxx,
    Np.mean (map (fun i => nth i X 0 * nth i eps 0) (seq 0 n)) = Some mxe
    /\ Np.mean (map (fun i => nth i X 0 * nth i X 0) (seq 0 n)) = Some mxx
    /\ 0 <= mxx
    /\ result_of (df <- Example1.get_sample_1 n beta seed ;;
                  Example1.get_moments df b) w
       = Some (mxe + (beta - b) * mxx)
    /\ result_of (df <- Example1.get_sample_1 n beta seed ;;
                  Example1.get_moments df beta) w
       = Some mxe.
Proof.
  intros n s0 X eps Hn.
  destruct (mean_over_rows_defined n (fun i => nth i X 0 * nth i eps 0) Hn)
    as (mxe & Hxe).
  destruct (mean_over_rows_defined n (fun i => nth i X 0 * nth i X 0) Hn)
    as (mxx & Hxx).
  exists mxe, mxx. split; [exact Hxe|]. split; [exact Hxx|].
  split; [apply (mean_of_squares_nonneg n (fun i => nth i X 0) mxx Hxx)|].
  assert (Hrun : forall b',
             result_of (df <- Example1.get_sample_1 n beta seed ;;
                        Example1.get_moments df b') w
             = Some (mxe + (beta - b') * mxx)).
  { intros b'. unfold result_of.
    run_with (get_sample_1_run n beta seed w).
    rewrite sample_1_get_moments_run.
    change (sample_1_X n (default_arg seed 123%N)) with X.
    change (sample_1_eps n (default_arg seed 123%N)) with eps.
    rewrite (mean_map_affine _ _ (beta - b') _ mxe mxx Hxe Hxx). reflexivity. }
  split; [apply Hrun|].
  rewrite Hrun. f_equal. ring.
Qed.

Lemma example1_moment_of_a_one_row_sample :
  exists mxe mxx,
    result_of (df <- Example1.get_sample_1 1 2 (Some 1%N) ;;
               Example1.get_moments df 5) line_world
    = Some (mxe + (2 - 5) * mxx).
Proof.
  destruct (example1_moment_of_a_sample_is_affine_in_the_slope
              counting_generator 1 2 5 (Some 1%N) line_world ltac:(lia))
    as (mxe & mxx & _ & _ & _ & H & _).
  exists mxe, mxx. exact H.
Defined.

(** X8.  On such a sample with [mean(X^2)] not zero, the Example-1 criterion
    is [(mean(X^2) * (b_min - b))^2] with
    [b_min = beta + mean(X * eps) / mean(X^2)]: it is never negative, it is
    zero at [b_min], and nowhere else. *)
Theorem example1_criterion_of_a_sample_has_one_minimiser
    (G : Generator) (num_agents : nat) (beta : R) (seed : option N) (w : World)
    (mxe mxx : R) :
  let n := num_agents in
  let s0 := seed_state (default_arg seed 123%N) in
  let X := fst (draw_normal 10 n s0) in
  let eps := fst (draw_normal 1 n (snd (draw_normal 10 n s0))) in
  let b_min := beta + mxe / mxx in
  let criterion := fun b =>
    result_of (df <- Example1.get_sample_1 n beta seed ;;
               Example1.criterion_function_gmm b df) w in
  Np.mean (map (fun i => nth i X 0 * nth i eps 0) (seq 0 n)) = Some mxe ->
  Np.mean (map (fun i => nth i X 0 * nth i X 0) (seq 0 n)) = Some mxx ->
  mxx <> 0 ->
  (forall b, criterion b = Some ((mxx * (b_min - b)) * (mxx * (b_min - b))))
  /\ criterion b_min = Some 0
  /\ (forall b c, criterion b = Some c -> 0 <= c /\ (c = 0 -> b = b_min)).
Proof.
  intros n s0 X eps b_min criterion Hxe Hxx Hne.
  assert (Hrun : forall b,
             criterion b = Some ((mxx * (b_min - b)) * (mxx * (b_min - b)))).
  { intros b. unfold criterion, result_of, Example1.criterion_function_gmm.
    run_with (get_sample_1_run n beta seed w).
    rewrite bind_assoc || idtac.
    unfold bind at 1. rewrite sample_1_get_moments_run.
    change (sample_1_X n (default_arg seed 123%N)) with X.
    change (sample_1_eps n (default_arg seed 123%N)) with eps.
    rewrite (mean_map_affine _ _ (beta - b) _ mxe mxx Hxe Hxx).
    unfold lift, bind. rewrite mean_singleton. unfold ret, Np.square; simpl.
    f_equal. unfold b_min. field. exact Hne. }
  split; [exact Hrun|]. split.
  - rewrite Hrun. f_equal. ring.
  - intros b c Hc. rewrite Hrun in Hc.
    assert (Ec : c = (mxx * (b_min - b)) * (mxx * (b_min - b))) by congruence.
    split; [rewrite Ec; apply Rle_0_sqr|].
    intros Hz. rewrite Hz in Ec. symmetry in Ec.
    apply Rmult_integral in Ec.
    assert (Ht : mxx * (b_min - b) = 0) by tauto.
    apply Rmult_integral in Ht. destruct Ht as [Ht|Ht]; [contradiction|].
    apply Rminus_diag_uniq in Ht. symmetry; exact Ht.
Qed.

Lemma example1_criterion_of_a_one_row_sample :
  result_of (df <- Example1.get_sample_1 1 2 (Some 1%N) ;;
             Example1.criterion_function_gmm (2 + (10 * 1 * (1 * (1 + 1)) + 0) / 1
                                                  / ((10 * 1 * (10 * 1) + 0) / 1)) df)
            line_world
  = Some 0.
Proof.
  apply (example1_criterion_of_a_sample_has_one_minimiser
           counting_generator 1 2 (Some 1%N) line_world
           ((10 * 1 * (1 * (1 + 1)) + 0) / 1) ((10 * 1 * (10 * 1) + 0) / 1)
           eq_refl eq_refl).
  lra.
Defined.

(** X9.  At the slope a sample of [get_sample_1] was generated with,
    [get_residuals] gives back the noise [eps] of the second draw. *)
Theorem get_residuals_recovers_the_noise_of_a_sample
    (G : Generator) (num_agents : nat) (beta : R) (seed : option N) (w : World) :
  let n := num_agents in
  let s0 := seed_state (default_arg seed 123%N) in
  let eps := fst (draw_normal 1 n (snd (draw_normal 10 n s0))) in
  result_of (df <- Example1.get_sample_1 n beta seed ;;
             Example1.get_residuals df beta) w
  = Some eps.
Proof.
  intros n s0 eps. unfold result_of.
  run_with (get_sample_1_run n beta seed w).
  set (sd := default_arg seed 123%N).
  rewrite (example1_residuals_run _ _ (sample_1_frame n beta sd) beta
             (sample_1_Y n beta sd) (sample_1_X n sd));
    try reflexivity.
  - simpl. f_equal. unfold rows2, sample_1_Y.
    rewrite (combine_rows _ n (sample_1_X n sd) (sample_1_X_length n sd)), map_map.
    rewrite (as_rows n eps) by apply draw_normal_length.
    apply map_rows_ext. intros i _. unfold residual; simpl.
    change (sample_1_eps n sd) with eps. ring.
  - apply frame_at_last.
  - rewrite sample_1_Y_length, sample_1_X_length. reflexivity.
Qed.

Section OnSample2.

Context {G : Generator}.

Lemma sample_2_X_length (n : nat) (sd : N) : length (sample_2_X n sd) = n.
Proof. unfold sample_2_X. rewrite length_map, length_seq. reflexivity. Qed.

Lemma sample_2_Y_length (n : nat) (beta : R) (sd : N) :
  length (sample_2_Y n beta sd) = n.
Proof. unfold sample_2_Y. rewrite length_map, length_seq. reflexivity. Qed.

(** On the frame of [get_sample_2], the product of a column [zs] and the
    residual at slope [b] is [Z * U + (beta - b) * (Z * X)] in every row. *)
Lemma sample_2_products (n : nat) (beta b : R) (sd : N) (zs : list R) :
  length zs = n ->
  map (fun row => snd row * residual b (fst (fst row)) (snd (fst row)))
      (combine (combine (sample_2_Y n beta sd) (sample_2_X n sd)) zs)
  = map (fun i => nth i zs 0 * nth i (sample_2_U n sd) 0
                  + (beta - b) * (nth i zs 0 * nth i (sample_2_X n sd) 0))
        (seq 0 n).
Proof.
  intros Hz. unfold sample_2_Y at 1.
  rewrite (combine_rows _ n (sample_2_X n sd) (sample_2_X_length n sd)).
  rewrite (combine_rows _ n zs Hz), map_map.
  apply map_rows_ext. intros i _. unfold residual; simpl. ring.
Qed.

Lemma sample_2_get_moments_run (n : nat) (beta b : R) (sd : N)
      (s : rng_state) (h : list Pd.DataFrame) :
  let rows := fun zs =>
    map (fun i => nth i zs 0 * nth i (sample_2_U n sd) 0
                  + (beta - b) * (nth i zs 0 * nth i (sample_2_X n sd) 0))
        (seq 0 n) in
  Example2.get_moments (length h) b (mkWorld s (h ++ [sample_2_frame n beta sd]))
  = lift (match Np.mean (rows (sample_2_Z1 n sd)), Np.mean (rows (sample_2_Z2 n sd)) with
          | Some m0, Some m1 => Some [m0; m1]
          | _, _ => None
          end)
         (mkWorld s (h ++ [sample_2_frame n beta sd])).
Proof.
  intros rows.
  rewrite (example2_get_moments_run _ (length h) (sample_2_frame n beta sd) b
             (sample_2_Y n beta sd) (sample_2_X n sd)
             (sample_2_Z1 n sd) (sample_2_Z2 n sd));
    try reflexivity.
  - unfold moment_vector, moment_of, mean_over.
    rewrite !sample_2_products by apply draw_after_length.
    fold (rows (sample_2_Z1 n sd)). fold (rows (sample_2_Z2 n sd)).
    destruct (Np.mean (rows (sample_2_Z1 n sd)));
      destruct (Np.mean (rows (sample_2_Z2 n sd))); reflexivity.
  - apply frame_at_last.
  - rewrite sample_2_Y_length, sample_2_X_length. reflexivity.
  - rewrite sample_2_X_length. apply draw_after_length.
  - rewrite sample_2_X_length. apply draw_after_length.
Qed.

End OnSample2.

(** X10.  On a sample of [get_sample_2] with at least one row, generated
    with slope [beta], the two Example-2 moments at slope [b] are
    [mean(Zk * U) + (beta - b) * mean(Zk * X)] for [k = 1, 2], with
    [U = C + u] the error of the sample; at the true slope they are the
    sample means of instrument times error. *)
Theorem example2_moments_of_a_sample_are_affine_in_the_slope
    (G : Generator) (num_agents : nat) (beta b : R) (seed : option N) (w : World) :
  let n := num_agents in
  let sd := default_arg seed 123%N in
  let mean_of_products := fun (zs vs : list R) =>
    Np.mean (map (fun i => nth i zs 0 * nth i vs 0) (seq 0 n)) in
  (0 < n)%nat ->
  exists c1 c2 a1 a2,
    mean_of_products (sample_2_Z1 n sd) (sample_2_U n sd) = Some c1
    /\ mean_of_products (sample_2_Z2 n sd) (sample_2_U n sd) = Some c2
    /\ mean_of_products (sample_2_Z1 n sd) (sample_2_X n sd) = Some a1
    /\ mean_of_products (sample_2_Z2 n sd) (sample_2_X n sd) = Some a2
    /\ result_of (df <- Example2.get_sample_2 n beta seed ;;
                  Example2.get_moments df b) w
       = Some [c1 + (beta - b) * a1; c2 + (beta - b) * a2]
    /\ result_of (df <- Example2.get_sample_2 n beta seed ;;
                  Example2.get_moments df beta) w
       = Some [c1; c2].
Proof.
  intros n sd mp Hn. unfold mp.
  destruct (mean_over_rows_defined n
              (fun i => nth i (sample_2_Z1 n sd) 0 * nth i (sample_2_U n sd) 0) Hn)
    as (c1 & H1).
  destruct (mean_over_rows_defined n
              (fun i => nth i (sample_2_Z2 n sd) 0 * nth i (sample_2_U n sd) 0) Hn)
    as (c2 & H2).
  destruct (mean_over_rows_defined n
              (fun i => nth i (sample_2_Z1 n sd) 0 * nth i (sample_2_X n sd) 0) Hn)
    as (a1 & H3).
  destruct (mean_over_rows_defined n
              (fun i => nth i (sample_2_Z2 n sd) 0 * nth i (sample_2_X n sd) 0) Hn)
    as (a2 & H4).
  exists c1, c2, a1, a2. do 4 (split; [assumption|]).
  assert (Hrun : forall b',
             result_of (df <- Example2.get_sample_2 n beta seed ;;
                        Example2.get_moments df b') w
             = Some [c1 + (beta - b') * a1; c2 + (beta - b') * a2]).
  { intros b'. unfold result_of.
    run_with (get_sample_2_run n beta seed w).
    rewrite sample_2_get_moments_run. fold sd.
    rewrite (mean_map_affine _ _ (beta - b') _ c1 a1 H1 H3).
    rewrite (mean_map_affine _ _ (beta - b') _ c2 a2 H2 H4).
    reflexivity. }
  split; [apply Hrun|].
  rewrite Hrun. repeat f_equal; ring.
Qed.

Lemma example2_moments_of_a_one_row_sample :
  exists c1 c2 a1 a2,
    result_of (df <- Example2.get_sample_2 1 2 (Some 1%N) ;;
               Example2.get_moments df 5) line_world
    = Some [c1 + (2 - 5) * a1; c2 + (2 - 5) * a2].
Proof.
  destruct (example2_moments_of_a_sample_are_affine_in_the_slope
              counting_generator 1 2 5 (Some 1%N) line_world ltac:(lia))
    as (c1 & c2 & a1 & a2 & _ & _ & _ & _ & H & _).
  exists c1, c2, a1, a2. exact H.
Defined.

(** X11.  On such a sample, with the default identity weighting and
    [mean(Z1 * X)], [mean(Z2 * X)] not both zero, the Example-2 criterion is
    a parabola in the slope: its least value
    [(a1 * c2 - a2 * c1)^2 / (a1^2 + a2^2)] is taken at
    [b_min = beta + (a1 * c1 + a2 * c2) / (a1^2 + a2^2)] and nowhere else,
    where [ak = mean(Zk * X)] and [ck = mean(Zk * U)]. *)
Theorem example2_criterion_of_a_sample_has_one_minimiser
    (G : Generator) (num_agents : nat) (beta : R) (seed : option N) (w : World)
    (c1 c2 a1 a2 : R) :
  let n := num_agents in
  let sd := default_arg seed 123%N in
  let mean_of_products := fun (zs vs : list R) =>
    Np.mean (map (fun i => nth i zs 0 * nth i vs 0) (seq 0 n)) in
  let S := a1 * a1 + a2 * a2 in
  let b_min := beta + (a1 * c1 + a2 * c2) / S in
  let least := (a1 * c2 - a2 * c1) * (a1 * c2 - a2 * c1) / S in
  let criterion := fun b =>
    result_of (df <- Example2.get_sample_2 n beta seed ;;
               Example2.criterion_function_gmm b df None) w in
  mean_of_products (sample_2_Z1 n sd) (sample_2_U n sd) = Some c1 ->
  mean_of_products (sample_2_Z2 n sd) (sample_2_U n sd) = Some c2 ->
  mean_of_products (sample_2_Z1 n sd) (sample_2_X n sd) = Some a1 ->
  mean_of_products (sample_2_Z2 n sd) (sample_2_X n sd) = Some a2 ->
  S <> 0 ->
  (forall b, criterion b = Some (least + S * ((b - b_min) * (b - b_min))))
  /\ criterion b_min = Some least
  /\ (forall b c, criterion b = Some c -> least <= c /\ (c = least -> b = b_min)).
Proof.
  intros n sd mp S b_min least criterion H1 H2 H3 H4 HS. unfold mp in *.
  assert (Hrun : forall b,
             criterion b = Some (least + S * ((b - b_min) * (b - b_min)))).
  { intros b. unfold criterion, result_of, Example2.criterion_function_gmm.
    run_with (get_sample_2_run n beta seed w).
    unfold bind at 1. rewrite sample_2_get_moments_run. fold sd.
    rewrite (mean_map_affine _ _ (beta - b) _ c1 a1 H1 H3).
    rewrite (mean_map_affine _ _ (beta - b) _ c2 a2 H2 H4).
    unfold lift at 1. cbv beta iota.
    pose proof (quadratic_form_by_dots (c1 + (beta - b) * a1)
                  (c2 + (beta - b) * a2) 1 0 0 1) as Q.
    unfold default_arg. change (Np.identity 2) with [[1; 0]; [0; 1]].
    unfold bind, lift.
    destruct (Np.dot_vm _ _) as [mW|]; [|discriminate].
    rewrite Q. unfold ret; simpl. f_equal.
    unfold quadratic_form2, least, b_min, S. field. exact HS. }
  assert (HSpos : 0 < S).
  { assert (0 <= S) by (unfold S; nra).
    destruct (Rle_lt_or_eq_dec 0 S H) as [Hlt|Heq]; [exact Hlt|congruence]. }
  split; [exact Hrun|]. split.
  - rewrite Hrun. f_equal. ring.
  - intros b c Hc. rewrite Hrun in Hc.
    assert (Ec : c = least + S * ((b - b_min) * (b - b_min))) by congruence.
    clearbody b_min least S. split.
    + rewrite Ec. assert (0 <= (b - b_min) * (b - b_min)) by apply Rle_0_sqr. nra.
    + intros Hcl. rewrite Hcl in Ec.
      assert (Hz : S * ((b - b_min) * (b - b_min)) = 0) by lra.
      apply Rmult_integral in Hz. destruct Hz as [Hz|Hz]; [lra|].
      apply Rmult_integral in Hz. lra.
Qed.

Lemma example2_criterion_of_a_one_row_sample :
  exists least,
    result_of (df <- Example2.get_sample_2 1 2 (Some 1%N) ;;
               Example2.criterion_function_gmm 2 df None) line_world
    = Some least.
Proof.
  set (sd := 1%N).
  set (prod := fun zs vs : list R => (nth 0 zs 0 * nth 0 vs 0 + 0) / 1).
  set (c1 := prod (sample_2_Z1 1 sd) (sample_2_U 1 sd)).
  set (c2 := prod (sample_2_Z2 1 sd) (sample_2_U 1 sd)).
  set (a1 := prod (sample_2_Z1 1 sd) (sample_2_X 1 sd)).
  set (a2 := prod (sample_2_Z2 1 sd) (sample_2_X 1 sd)).
  assert (HS : a1 * a1 + a2 * a2 <> 0).
  { unfold a1, a2, prod, sd, sample_2_Z1, sample_2_Z2, sample_2_X, sample_2_C,
      sample_2_nu, draw_after; simpl. lra. }
  destruct (example2_criterion_of_a_sample_has_one_minimiser
              counting_generator 1 2 (Some 1%N) line_world c1 c2 a1 a2
              eq_refl eq_refl eq_refl eq_refl HS) as (Hrun & _ & _).
  eexists. apply (Hrun 2).
Defined.

(** X12.  On a sample of no agent every moment and every criterion is not a
    number, whereas [get_residuals] returns the empty array. *)
Theorem samples_of_no_agent_have_no_moments
    (G : Generator) (F : Np.NormalDensity) (beta b : R) (seed : option N)
    (W : option Np.matrix) (w : World) :
  result_of (df <- Example1.get_sample_1 0 beta seed ;;
             Example1.get_residuals df b) w = Some []
  /\ result_of (df <- Example1.get_sample_1 0 beta seed ;;
                Example1.get_moments df b) w = None
  /\ result_of (df <- Example1.get_sample_1 0 beta seed ;;
                Example1.criterion_function_gmm b df) w = None
  /\ result_of (df <- Example1.get_sample_1 0 beta seed ;;
                Example1.criterion_function_mle b df) w = None
  /\ result_of (df <- Example2.get_sample_2 0 beta seed ;;
                Example2.get_moments df b) w = None
  /\ result_of (df <- Example2.get_sample_2 0 beta seed ;;
                Example2.criterion_function_gmm b df W) w = None.
Proof.
  set (sd := default_arg seed 123%N).
  assert (F1 : forall s h,
             frame_at (mkWorld s (h ++ [sample_1_frame 0 beta sd])) (length h)
             = Some (sample_1_frame 0 beta sd)) by (intros; apply frame_at_last).
  unfold result_of. repeat split.
  - run_with (get_sample_1_run 0 beta seed w).
    rewrite (example1_residuals_run _ _ (sample_1_frame 0 beta sd) b
               (sample_1_Y 0 beta sd) (sample_1_X 0 sd));
      auto.
    rewrite sample_1_Y_length, sample_1_X_length. reflexivity.
  - run_with (get_sample_1_run 0 beta seed w).
    rewrite sample_1_get_moments_run. reflexivity.
  - run_with (get_sample_1_run 0 beta seed w).
    unfold Example1.criterion_function_gmm, bind at 1.
    rewrite sample_1_get_moments_run. reflexivity.
  - run_with (get_sample_1_run 0 beta seed w).
    rewrite (example1_mle_run _ _ (sample_1_frame 0 beta sd) b
               (sample_1_Y 0 beta sd) (sample_1_X 0 sd));
      auto.
    rewrite sample_1_Y_length, sample_1_X_length. reflexivity.
  - run_with (get_sample_2_run 0 beta seed w).
    rewrite sample_2_get_moments_run. reflexivity.
  - run_with (get_sample_2_run 0 beta seed w).
    unfold Example2.criterion_function_gmm, bind at 1.
    rewrite sample_2_get_moments_run. reflexivity.
Qed.

(** ** The likelihood criterion, in closed form *)

Section LikelihoodFacts.

Context {F : Np.NormalDensity}.

Lemma ln_sqrt_2PI_lt_8 : ln (sqrt (2 * PI)) < 8.
Proof.
  pose proof sqrt_2PI_gt_1 as H1. pose proof PI_4 as H4. pose proof PI2_1 as H0.
  assert (Hs : sqrt (2 * PI) < 2 * PI) by (apply sqrt_less; lra).
  assert (Hl : ln (sqrt (2 * PI)) < sqrt (2 * PI)).
  { rewrite <- (ln_exp (sqrt (2 * PI))) at 2. apply ln_increasing; [lra|].
    pose proof (exp_ineq1 (sqrt (2 * PI)) ltac:(lra)). lra. }
  lra.
Qed.

(** A term is left as it is by the guard when the residual is moderate. *)
Lemma clip_leaves_moderate_residuals (r : R) :
  r * r <= 900 -> clipped_log_density r = - (r * r) / 2 - ln (sqrt (2 * PI)).
Proof.
  intros Hr. unfold clipped_log_density.
  rewrite (Np.norm_pdf1_moderate r Hr).
  assert (Hp : 0 < Np.density r).
  { unfold Np.density. apply Rdiv_lt_0_compat; [apply exp_pos|].
    pose proof sqrt_2PI_gt_1. lra. }
  destruct (Rlt_dec 0 (Np.density r)); [|contradiction].
  rewrite ln_density_closed.
  apply Rmax_right. pose proof ln_sqrt_2PI_lt_8. lra.
Qed.

(** A term is replaced by the guard when the residual is far out. *)
Lemma clip_replaces_far_residuals (r : R) :
  2 * 10e6 <= r * r -> clipped_log_density r = -10e6.
Proof.
  intros Hr. unfold clipped_log_density.
  rewrite (Np.norm_pdf1_far r) by lra.
  destruct (Rlt_dec 0 0); [lra|reflexivity].
Qed.

Lemma clipped_log_density_upper (r : R) :
  clipped_log_density r <= - ln (sqrt (2 * PI)).
Proof.
  unfold clipped_log_density. pose proof ln_sqrt_2PI_lt_8 as H8.
  pose proof sqrt_2PI_gt_1 as Hs.
  destruct (Rlt_dec 0 (Np.norm_pdf1 r)) as [Hp|_]; [|lra].
  apply Rmax_lub; [lra|].
  rewrite <- ln_Rinv by lra.
  destruct (Np.norm_pdf1_range r) as [_ [Hlt|Heq]].
  - left. apply ln_increasing; assumption.
  - rewrite Heq. lra.
Qed.

End LikelihoodFacts.

(** X13.  On a data frame with at least one row, [criterion_function_mle]
    is at least [ln(sqrt(2 * pi))], the value it would take if every
    residual were zero; in particular it is positive. *)
Theorem mle_criterion_is_at_least_its_value_at_a_perfect_fit
    (G : Generator) (F : Np.NormalDensity) (w : World) (df : ref)
    (d : Pd.DataFrame) (beta : R) (ys xs : list R) :
  frame_at w df = Some d -> Pd.well_formed d = true ->
  Pd.getitem d "Y" = Some ys -> Pd.getitem d "X" = Some xs ->
  (0 < Pd.nrows d)%nat ->
  exists c,
    result_of (Example1.criterion_function_mle beta df) w = Some c
    /\ ln (sqrt (2 * PI)) <= c /\ 0 < c.
Proof.
  intros Hd Hwf HY HX Hrows.
  pose proof (getitem_length d "Y" ys Hwf HY) as LY.
  pose proof (getitem_length d "X" xs Hwf HX) as LX.
  set (terms := map (fun row => clipped_log_density
                                  (residual beta (fst row) (snd row)))
                    (rows2 ys xs)).
  assert (Hne : terms <> []).
  { intros E. apply (f_equal (@length R)) in E. unfold terms, rows2 in E.
    rewrite length_map, length_combine in E. simpl in E. lia. }
  assert (Hall : Forall (fun t => t <= - ln (sqrt (2 * PI))) terms).
  { unfold terms. apply Forall_forall. intros t Ht. apply in_map_iff in Ht.
    destruct Ht as (row & <- & _). apply clipped_log_density_upper. }
  destruct (mean_upper_bound _ terms Hne Hall) as (m & Hm & Hhi).
  exists (- m). split.
  - unfold result_of.
    rewrite (example1_mle_run w df d beta ys xs Hd HY HX) by congruence.
    unfold mean_over. fold terms. rewrite Hm. reflexivity.
  - pose proof ln_sqrt_2PI_pos. split; lra.
Qed.

Lemma mle_criterion_positive_on_line_world :
  exists c, result_of (Example1.criterion_function_mle 2 0%nat) line_world = Some c
            /\ 0 < c.
Proof.
  destruct (mle_criterion_is_at_least_its_value_at_a_perfect_fit
              counting_generator flushing_density line_world 0%nat line_frame 2 [3; 5] [1; 2]
              eq_refl eq_refl eq_refl eq_refl
              ltac:(unfold Pd.nrows; simpl; lia))
    as (c & Hc & _ & Hpos).
  exists c. split; assumption.
Defined.

(** X14.  On a data frame with at least one row whose residuals all lie
    within 30 of zero, the guard is idle and [criterion_function_mle] is
    [ln(sqrt(2 * pi)) + mean(residual^2) / 2]: up to a constant, half the
    mean squared residual. *)
Theorem mle_criterion_is_half_the_mean_squared_residual
    (G : Generator) (F : Np.NormalDensity) (w : World) (df : ref)
    (d : Pd.DataFrame) (beta : R) (ys xs : list R) :
  frame_at w df = Some d -> Pd.well_formed d = true ->
  Pd.getitem d "Y" = Some ys -> Pd.getitem d "X" = Some xs ->
  (0 < Pd.nrows d)%nat ->
  Forall (fun row => residual beta (fst row) (snd row)
                     * residual beta (fst row) (snd row) <= 900) (rows2 ys xs) ->
  exists msq,
    mean_over (fun row => residual beta (fst row) (snd row)
                          * residual beta (fst row) (snd row)) (rows2 ys xs)
    = Some msq
    /\ result_of (Example1.criterion_function_mle beta df) w
       = Some (ln (sqrt (2 * PI)) + msq / 2).
Proof.
  intros Hd Hwf HY HX Hrows Hmod.
  pose proof (getitem_length d "Y" ys Hwf HY) as LY.
  pose proof (getitem_length d "X" xs Hwf HX) as LX.
  set (sq := fun row : R * R => residual beta (fst row) (snd row)
                                * residual beta (fst row) (snd row)).
  assert (Hne : rows2 ys xs <> []).
  { intros E. apply (f_equal (@length (R * R))) in E. unfold rows2 in E.
    rewrite length_combine in E. simpl in E. lia. }
  assert (Hsq : exists msq, Np.mean (map sq (rows2 ys xs)) = Some msq).
  { destruct (rows2 ys xs); [congruence|]. eexists; reflexivity. }
  destruct Hsq as (msq & Hsq). exists msq. split; [exact Hsq|].
  unfold result_of.
  rewrite (example1_mle_run w df d beta ys xs Hd HY HX) by congruence.
  unfold mean_over.
  assert (Hterms :
            map (fun row => clipped_log_density (residual beta (fst row) (snd row)))
                (rows2 ys xs)
            = map (fun row => - ln (sqrt (2 * PI)) + (- / 2) * sq row) (rows2 ys xs)).
  { apply map_ext_Forall. eapply Forall_impl; [|exact Hmod].
    intros row Hrow. rewrite clip_leaves_moderate_residuals by exact Hrow.
    unfold sq. field. }
  rewrite Hterms.
  assert (Hconst : Np.mean (map (fun _ : R * R => - ln (sqrt (2 * PI))) (rows2 ys xs))
                   = Some (- ln (sqrt (2 * PI)))).
  { apply mean_of_equal_terms.
    - destruct (rows2 ys xs); [congruence|discriminate].
    - apply Forall_forall. intros t Ht. apply in_map_iff in Ht.
      destruct Ht as (row & <- & _). reflexivity. }
  rewrite (mean_map_affine _ sq (- / 2) _ _ msq Hconst Hsq).
  simpl. f_equal. field.
Qed.

Lemma mle_criterion_closed_form_on_line_world :
  exists msq,
    result_of (Example1.criterion_function_mle 2 0%nat) line_world
    = Some (ln (sqrt (2 * PI)) + msq / 2).
Proof.
  destruct (mle_criterion_is_half_the_mean_squared_residual
              counting_generator flushing_density line_world 0%nat line_frame 2 [3; 5] [1; 2]
              eq_refl eq_refl eq_refl eq_refl
              ltac:(unfold Pd.nrows; simpl; lia)
              ltac:(repeat constructor; unfold residual; simpl; lra))
    as (msq & _ & H).
  exists msq. exact H.
Defined.

(** X15.  On a data frame with at least one row whose residuals all have a
    square of at least [2 * 10e6], every term is replaced by the guard and
    [criterion_function_mle] is exactly [10e6]: far from the data the
    criterion is flat in [beta]. *)
Theorem mle_criterion_is_flat_far_from_the_data
    (G : Generator) (F : Np.NormalDensity) (w : World) (df : ref)
    (d : Pd.DataFrame) (beta : R) (ys xs : list R) :
  frame_at w df = Some d -> Pd.well_formed d = true ->
  Pd.getitem d "Y" = Some ys -> Pd.getitem d "X" = Some xs ->
  (0 < Pd.nrows d)%nat ->
  Forall (fun row => 2 * 10e6 <= residual beta (fst row) (snd row)
                                 * residual beta (fst row) (snd row)) (rows2 ys xs) ->
  result_of (Example1.criterion_function_mle beta df) w = Some 10e6.
Proof.
  intros Hd Hwf HY HX Hrows Hfar.
  pose proof (getitem_length d "Y" ys Hwf HY) as LY.
  pose proof (getitem_length d "X" xs Hwf HX) as LX.
  unfold result_of.
  rewrite (example1_mle_run w df d beta ys xs Hd HY HX) by congruence.
  unfold mean_over.
  rewrite (mean_of_equal_terms (-10e6)).
  - simpl. f_equal. lra.
  - intros E. apply (f_equal (@length R)) in E. unfold rows2 in E.
    rewrite length_map, length_combine in E. simpl in E. lia.
  - apply Forall_forall. intros t Ht. apply in_map_iff in Ht.
    destruct Ht as (row & <- & Hin). rewrite Forall_forall in Hfar.
    apply clip_replaces_far_residuals. apply Hfar. exact Hin.
Qed.

Lemma mle_criterion_flat_on_far_world :
  result_of (Example1.criterion_function_mle 0 0%nat) far_world = Some 10e6
  /\ result_of (Example1.criterion_function_mle 1 0%nat) far_world = Some 10e6.
Proof.
  split;
    apply (mle_criterion_is_flat_far_from_the_data
             counting_generator flushing_density far_world 0%nat far_frame _ [10001] [0]
             eq_refl eq_refl eq_refl eq_refl
             ltac:(unfold Pd.nrows; simpl; lia));
    repeat constructor; unfold residual; simpl; lra.
Defined.

(** X16.  With the default weighting neither GMM criterion is ever
    negative: the Example-1 criterion is the square of the moment, the
    Example-2 criterion the sum of the squares of the two moments, and each
    is zero only when its moments are. *)
Theorem gmm_criteria_are_sums_of_squared_moments
    (G : Generator) (w w' : World) (df : ref) (b c : R) :
  (Example1.criterion_function_gmm b df w = Some (c, w') ->
   exists m, Example1.get_moments df b w = Some (m, w')
             /\ c = m * m /\ 0 <= c /\ (c = 0 -> m = 0))
  /\ (Example2.criterion_function_gmm b df None w = Some (c, w') ->
      exists m0 m1, Example2.get_moments df b w = Some ([m0; m1], w')
                    /\ c = m0 * m0 + m1 * m1 /\ 0 <= c
                    /\ (c = 0 -> m0 = 0 /\ m1 = 0)).
Proof.
  split; intros H.
  - unfold Example1.criterion_function_gmm in H.
    apply bind_inv in H. destruct H as (m & w1 & Hm & H).
    unfold bind, lift in H. rewrite mean_singleton in H.
    unfold ret, Np.square in H. inversion H; subst.
    exists m. repeat split; auto; nra.
  - unfold Example2.criterion_function_gmm in H.
    apply bind_inv in H. destruct H as (ms & w1 & Hm & H).
    pose proof (example2_get_moments_length df b w w1 ms Hm) as Hlen.
    destruct ms as [|m0 [|m1 [|? ?]]]; try discriminate.
    pose proof (quadratic_form_by_dots m0 m1 1 0 0 1) as Q.
    unfold default_arg in H. change (Np.identity 2) with [[1; 0]; [0; 1]] in H.
    unfold bind, lift in H.
    destruct (Np.dot_vm [m0; m1] [[1; 0]; [0; 1]]) as [mW|]; [|discriminate].
    rewrite Q in H. unfold ret in H. inversion H; subst.
    exists m0, m1. unfold quadratic_form2.
    repeat split; auto; try nra.
Qed.

Lemma gmm_criterion_on_line_world_is_a_square :
  exists c m, Example1.criterion_function_gmm 5 0%nat line_world = Some (c, line_world)
              /\ c = m * m /\ 0 <= c.
Proof.
  eexists. 
  destruct (proj1 (gmm_criteria_are_sums_of_squared_moments
                     counting_generator line_world line_world 0%nat 5 _) eq_refl)
    as (m & _ & Hc & Hpos & _).
  exists m. split; [reflexivity|]. split; assumption.
Defined.
